(** * QuizCraft: the quiz-history routes

    A shallow embedding of [backend/routes/history.js]: the grading loop and
    the three writes of [POST /api/history], the explanation time lock of
    [GET /api/history/:id], and the paged list of [GET /api/history].

    Conventions of the embedding.
    - A JavaScript number is a [number]: an exact rational, one of the two
      infinities, or NaN.  The special values follow IEEE 754 (0/0 is NaN,
      NaN compares false with everything); the rounding of binary64 and the
      sign of zero are not modelled.  Counters and point weights, which the
      data model keeps integral, are [Z].
    - A JavaScript string is a [string] of code units; [toLowerCase] and
      [trim] are given on the ASCII range.
    - Every [await] of the handlers is one atomic database operation; a
      handler is a [Prog], a tree of such operations, so that the same
      definition can be run alone or interleaved with other requests. *)

From Stdlib Require Import ZArith QArith Qabs Qround String Ascii.
From stdpp Require Import base option list gmap strings.

(** ** Numbers *)

Module Num.

Inductive number : Type :=
| Fin (q : Q)
| PosInf
| NegInf
| NaN.

Definition of_Z (z : Z) : number := Fin (inject_Z z).

Definition isFinite (x : number) : bool :=
  match x with Fin _ => true | _ => false end.

Definition signed_inf (positive : bool) : number :=
  if positive then PosInf else NegInf.

(** [None] for zero, otherwise whether the value is positive. *)
Definition sign (x : number) : option bool :=
  match x with
  | Fin q => if Qeq_bool q 0 then None else Some (Qle_bool 0 q)
  | PosInf => Some true
  | NegInf => Some false
  | NaN => None
  end.

Definition neg (x : number) : number :=
  match x with
  | Fin q => Fin (- q)
  | PosInf => NegInf
  | NegInf => PosInf
  | NaN => NaN
  end.

Definition add (x y : number) : number :=
  match x, y with
  | NaN, _ | _, NaN => NaN
  | Fin a, Fin b => Fin (a + b)
  | PosInf, NegInf | NegInf, PosInf => NaN
  | PosInf, _ | _, PosInf => PosInf
  | NegInf, _ | _, NegInf => NegInf
  end.

Definition sub (x y : number) : number := add x (neg y).

Definition mul (x y : number) : number :=
  match x, y with
  | NaN, _ | _, NaN => NaN
  | Fin a, Fin b => Fin (a * b)
  | _, _ =>
      match sign x, sign y with
      | Some s, Some t => signed_inf (Bool.eqb s t)
      | _, _ => NaN
      end
  end.

Definition div (x y : number) : number :=
  match x, y with
  | NaN, _ | _, NaN => NaN
  | Fin a, Fin b =>
      if Qeq_bool b 0
      then match sign x with
           | Some s => signed_inf s
           | None => NaN
           end
      else Fin (a / b)
  | Fin _, _ => Fin 0
  | _, Fin b =>
      match sign x with
      | Some s => signed_inf (Bool.eqb s (Qle_bool 0 b))
      | None => NaN
      end
  | _, _ => NaN
  end.

(** The relational operators; [None] when an operand is NaN. *)
Definition compare (x y : number) : option comparison :=
  match x, y with
  | NaN, _ | _, NaN => None
  | Fin a, Fin b => Some (a ?= b)%Q
  | PosInf, PosInf | NegInf, NegInf => Some Eq
  | PosInf, _ | _, NegInf => Some Gt
  | NegInf, _ | _, PosInf => Some Lt
  end.

Definition gt (x y : number) : bool :=
  match compare x y with Some Gt => true | _ => false end.

Definition ge (x y : number) : bool :=
  match compare x y with Some Gt | Some Eq => true | _ => false end.

(** Two numbers denote the same value ([NaN] is related to itself: this is
    the identity of values, not the [===] of the language). *)
Definition same (x y : number) : Prop :=
  match x, y with
  | Fin a, Fin b => (a == b)%Q
  | PosInf, PosInf | NegInf, NegInf | NaN, NaN => True
  | _, _ => False
  end.

End Num.

Export Num (number).

Declare Scope num_scope.
Delimit Scope num_scope with num.
Bind Scope num_scope with Num.number.
Infix "+" := Num.add : num_scope.
Infix "-" := Num.sub : num_scope.
Infix "*" := Num.mul : num_scope.
Infix "/" := Num.div : num_scope.
Infix ">?" := Num.gt (at level 70) : num_scope.
Infix ">=?" := Num.ge (at level 70) : num_scope.
Infix "≃" := Num.same (at level 70).

(** ** Strings *)

Definition lower_char (c : ascii) : ascii :=
  let n := nat_of_ascii c in
  if (65 <=? n)%nat && (n <=? 90)%nat then ascii_of_nat (n + 32) else c.

Fixpoint toLowerCase (s : string) : string :=
  match s with
  | EmptyString => EmptyString
  | String c r => String (lower_char c) (toLowerCase r)
  end.

(** TAB, LF, VT, FF, CR and SPACE. *)
Definition is_white_space (c : ascii) : bool :=
  let n := nat_of_ascii c in
  ((9 <=? n)%nat && (n <=? 13)%nat) || (n =? 32)%nat.

Fixpoint trimStart (s : string) : string :=
  match s with
  | EmptyString => EmptyString
  | String c r => if is_white_space c then trimStart r else s
  end.

Fixpoint trimEnd (s : string) : string :=
  match s with
  | EmptyString => EmptyString
  | String c r =>
      match trimEnd r with
      | EmptyString => if is_white_space c then EmptyString else String c EmptyString
      | r' => String c r'
      end
  end.

Definition trim (s : string) : string := trimEnd (trimStart s).

(** ** Values of a request body *)

Inductive value : Type :=
| VUndefined
| VNull
| VBool (b : bool)
| VNum (z : Z)
| VStr (s : string).

(** [a === b] *)
Definition strict_eq (a b : value) : bool :=
  match a, b with
  | VUndefined, VUndefined | VNull, VNull => true
  | VBool x, VBool y => Bool.eqb x y
  | VNum x, VNum y => (x =? y)%Z
  | VStr x, VStr y => String.eqb x y
  | _, _ => false
  end.

(** A [String] path of a document: the string, or [undefined] when absent. *)
Definition of_field (f : option string) : value :=
  match f with Some s => VStr s | None => VUndefined end.

Inductive Error : Type :=
| TypeError
| RangeError
| StorageError.

(** The outcome of evaluating code that may throw. *)
Inductive Completion (A : Type) : Type :=
| Normal (a : A)
| Thrown (e : Error).
Arguments Normal {A} a.
Arguments Thrown {A} e.

(** [v?.toLowerCase().trim()]: the chain stops at a nullish [v]; a value that
    is neither nullish nor a string has no [toLowerCase] to call. *)
Definition opt_toLowerCase_trim (v : value) : Completion value :=
  match v with
  | VUndefined | VNull => Normal VUndefined
  | VStr s => Normal (VStr (trim (toLowerCase s)))
  | VBool _ | VNum _ => Thrown TypeError
  end.

(** [answers?.[index]] for a body whose [answers] is an array or is absent. *)
Definition opt_index (answers : option (list value)) (index : nat) : value :=
  match answers with
  | None => VUndefined
  | Some l => default VUndefined (l !! index)
  end.

(** ** Documents *)

(** A [Number] path of a stored document or of a request body. *)
Inductive NumberPath : Type :=
| Absent
| Null
| Stored (n : number).

(** [Number(v)] *)
Definition Number (v : NumberPath) : number :=
  match v with
  | Absent => Num.NaN
  | Null => Num.of_Z 0
  | Stored n => n
  end.

Module Date.
(** A date is its time value in milliseconds; NaN is the invalid date. *)
Record t := { getTime : number }.

Definition max_time : Q := 8640000000000000.

Definition Qtruncate (q : Q) : Z :=
  if Qle_bool 0 q then Qfloor q else Qceiling q.

Definition TimeClip (tv : number) : number :=
  match tv with
  | Num.Fin q =>
      if Qle_bool (Qabs q) max_time
      then Num.of_Z (Qtruncate q)
      else Num.NaN
  | _ => Num.NaN
  end.

(** [new Date(tv)] for a number [tv]. *)
Definition new (tv : number) : t := {| getTime := TimeClip tv |}.

(** [toISOString] throws on the invalid date; the string is only logged. *)
Definition toISOString (d : t) : Completion unit :=
  if Num.isFinite (getTime d) then Normal tt else Thrown RangeError.
End Date.

Module Opt.
Record t := { text : string; isCorrect : bool }.
End Opt.

Module Question.
Record t := {
  _id : nat;
  type : string;
  options : list Opt.t;
  correctAnswer : option string;
  explanation : option string;
  points : Z
}.
End Question.

Module Analytics.
Record t := { totalAttempts : Z; averageScore : number }.
End Analytics.

Module Quiz.
Record t := {
  _id : nat;
  title : string;
  questions : list Question.t;
  timeLimit : NumberPath;
  passingScore : number;
  analytics : Analytics.t
}.
End Quiz.

Module Usage.
Record t := { quizzesTaken : Z; lastQuizDate : option Date.t }.
End Usage.

Module User.
Record t := {
  _id : nat;
  role : string;
  points : Z;
  usage : Usage.t
}.
End User.

(** One entry of the per-question breakdown. *)
Module Detailed.
Record t := {
  questionId : nat;
  userAnswer : value;
  isCorrect : bool;
  pointsEarned : Z;
  correctAnswer : option string;
  explanation : option string
}.
End Detailed.

Module History.
Record t := {
  _id : nat;
  user : nat;
  quiz : nat;
  answers : list Detailed.t;
  score : Z;
  percentage : number;
  totalQuestions : Z;
  correctAnswers : Z;
  incorrectAnswers : Z;
  timeTaken : NumberPath;
  passed : bool;
  completedAt : option Date.t
}.
End History.

(** ** Grading (the [forEach] of [router.post('/')]) *)

(** The mutable locals [correctAnswers], [score] and [detailedAnswers]. *)
Record Tally := {
  correctAnswers : Z;
  score : Z;
  detailedAnswers : list Detailed.t
}.

Definition is_mcq (question : Question.t) : bool :=
  String.eqb (Question.type question) "mcq".

Definition is_true_false (question : Question.t) : bool :=
  String.eqb (Question.type question) "true-false".

(** [correctOption?.text] with [correctOption = question.options.find(o => o.isCorrect)] *)
Definition correctOption_text (question : Question.t) : value :=
  match find Opt.isCorrect (Question.options question) with
  | Some correctOption => VStr (Opt.text correctOption)
  | None => VUndefined
  end.

(** The value of [isCorrect] for one question. *)
Definition check_answer (question : Question.t) (userAnswer : value)
  : Completion bool :=
  if is_mcq question then
    Normal (strict_eq userAnswer (correctOption_text question))
  else if is_true_false question then
    Normal (strict_eq userAnswer (of_field (Question.correctAnswer question)))
  else
    match opt_toLowerCase_trim userAnswer with
    | Thrown e => Thrown e
    | Normal lhs =>
        match opt_toLowerCase_trim (of_field (Question.correctAnswer question)) with
        | Thrown e => Thrown e
        | Normal rhs => Normal (strict_eq lhs rhs)
        end
    end.

(** The object pushed on [detailedAnswers]. *)
Definition detail (question : Question.t) (userAnswer : value) (isCorrect : bool)
  : Detailed.t :=
  {|
    Detailed.questionId := Question._id question;
    Detailed.userAnswer := userAnswer;
    Detailed.isCorrect := isCorrect;
    Detailed.pointsEarned := if isCorrect then Question.points question else 0%Z;
    Detailed.correctAnswer := Question.correctAnswer question;
    Detailed.explanation := Question.explanation question
  |}.

(** The body of the callback, on the current locals. *)
Definition grade_step (answers : option (list value))
    (question : Question.t) (index : nat) (acc : Tally) : Completion Tally :=
  let userAnswer := opt_index answers index in
  match check_answer question userAnswer with
  | Thrown e => Thrown e
  | Normal isCorrect =>
      Normal {|
        correctAnswers :=
          if isCorrect then (correctAnswers acc + 1)%Z else correctAnswers acc;
        score :=
          if isCorrect then (score acc + Question.points question)%Z else score acc;
        detailedAnswers :=
          detailedAnswers acc ++ [detail question userAnswer isCorrect]
      |}
  end.

(** [questions.forEach((question, index) => ...)] from position [index]. *)
Fixpoint forEach_from (answers : option (list value))
    (questions : list Question.t) (index : nat) (acc : Tally) : Completion Tally :=
  match questions with
  | [] => Normal acc
  | question :: rest =>
      match grade_step answers question index acc with
      | Thrown e => Thrown e
      | Normal acc' => forEach_from answers rest (S index) acc'
      end
  end.

Definition empty_tally : Tally :=
  {| correctAnswers := 0; score := 0; detailedAnswers := [] |}.

(** What grading leaves in scope for the rest of the handler. *)
Record Graded := {
  tally : Tally;
  percentage : number;
  passed : bool
}.

Definition grade (quiz : Quiz.t) (answers : option (list value)) : Completion Graded :=
  match forEach_from answers (Quiz.questions quiz) 0 empty_tally with
  | Thrown e => Thrown e
  | Normal t =>
      let percentage :=
        (Num.of_Z (correctAnswers t)
           / Num.of_Z (Z.of_nat (length (Quiz.questions quiz)))
           * Num.of_Z 100)%num in
      Normal {|
        tally := t;
        percentage := percentage;
        passed := (percentage >=? Quiz.passingScore quiz)%num
      |}
  end.

(** ** The store and its awaited operations *)

Record Db := {
  quizzes : gmap nat Quiz.t;
  quizhistories : gmap nat History.t;
  users : gmap nat User.t
}.

(** The object literal handed to [QuizHistory.create]. *)
Module Attempt.
Record t := {
  user : nat;
  quiz : nat;
  answers : list Detailed.t;
  score : Z;
  percentage : number;
  totalQuestions : Z;
  correctAnswers : Z;
  incorrectAnswers : Z;
  timeTaken : NumberPath;
  passed : bool
}.
End Attempt.

(** A history record after [.populate('quiz', ...).populate('user', ...)]:
    a reference whose target is gone populates to [null]. *)
Module Populated.
Record t := {
  doc : History.t;
  quiz : option Quiz.t;
  user : option User.t
}.
End Populated.

Inductive DbOp : Type -> Type :=
| Quiz_findById (id : nat) : DbOp (option Quiz.t)
| QuizHistory_create (fields : Attempt.t) : DbOp History.t
| User_incrementUsage (user : User.t) : DbOp User.t
| User_save (user : User.t) : DbOp unit
| Quiz_save (quiz : Quiz.t) : DbOp unit
| QuizHistory_findById_populated (id : nat) : DbOp (option Populated.t).

Inductive AwaitPoint : Type :=
| AtQuizFind
| AtHistoryCreate
| AtIncrementUsage
| AtUserSave
| AtQuizSave
| AtHistoryFind.

Definition point_of {X} (op : DbOp X) : AwaitPoint :=
  match op with
  | Quiz_findById _ => AtQuizFind
  | QuizHistory_create _ => AtHistoryCreate
  | User_incrementUsage _ => AtIncrementUsage
  | User_save _ => AtUserSave
  | Quiz_save _ => AtQuizSave
  | QuizHistory_findById_populated _ => AtHistoryFind
  end.

(** The clock, and which awaited calls the storage layer rejects. *)
Record Env := {
  now : Date.t;
  rejects : AwaitPoint -> bool
}.

(** Modelled from the spec: the schema of [models/QuizHistory] is missing;
    a new record gets an identifier not in use and a creation timestamp. *)
Definition created (env : Env) (db : Db) (fields : Attempt.t) : History.t :=
  {|
    History._id := fresh (dom (quizhistories db));
    History.user := Attempt.user fields;
    History.quiz := Attempt.quiz fields;
    History.answers := Attempt.answers fields;
    History.score := Attempt.score fields;
    History.percentage := Attempt.percentage fields;
    History.totalQuestions := Attempt.totalQuestions fields;
    History.correctAnswers := Attempt.correctAnswers fields;
    History.incorrectAnswers := Attempt.incorrectAnswers fields;
    History.timeTaken := Attempt.timeTaken fields;
    History.passed := Attempt.passed fields;
    History.completedAt := Some (now env)
  |}.

(** Modelled from the spec: [incrementUsage] of [models/User] is missing;
    for a quiz taken it adds one to [quizzesTaken] and sets [lastQuizDate]
    to the current time. *)
Definition incrementUsage_taken (env : Env) (usage : Usage.t) : Usage.t :=
  {|
    Usage.quizzesTaken := (Usage.quizzesTaken usage + 1)%Z;
    Usage.lastQuizDate := Some (now env)
  |}.

Definition with_usage (usage : Usage.t) (user : User.t) : User.t :=
  {|
    User._id := User._id user;
    User.role := User.role user;
    User.points := User.points user;
    User.usage := usage
  |}.

Definition with_points (points : Z) (user : User.t) : User.t :=
  {|
    User._id := User._id user;
    User.role := User.role user;
    User.points := points;
    User.usage := User.usage user
  |}.

Definition with_analytics (analytics : Analytics.t) (quiz : Quiz.t) : Quiz.t :=
  {|
    Quiz._id := Quiz._id quiz;
    Quiz.title := Quiz.title quiz;
    Quiz.questions := Quiz.questions quiz;
    Quiz.timeLimit := Quiz.timeLimit quiz;
    Quiz.passingScore := Quiz.passingScore quiz;
    Quiz.analytics := analytics
  |}.

Definition set_quizzes (m : gmap nat Quiz.t) (db : Db) : Db :=
  {| quizzes := m; quizhistories := quizhistories db; users := users db |}.

Definition set_quizhistories (m : gmap nat History.t) (db : Db) : Db :=
  {| quizzes := quizzes db; quizhistories := m; users := users db |}.

Definition set_users (m : gmap nat User.t) (db : Db) : Db :=
  {| quizzes := quizzes db; quizhistories := quizhistories db; users := m |}.

(** [Model.findById(id)] is [findOne({ _id: id })]. *)
Definition find_quiz (db : Db) (id : nat) : option Quiz.t :=
  quiz ← quizzes db !! id;
  if (Quiz._id quiz =? id)%nat then Some quiz else None.

Definition find_user (db : Db) (id : nat) : option User.t :=
  user ← users db !! id;
  if (User._id user =? id)%nat then Some user else None.

Definition find_history (db : Db) (id : nat) : option History.t :=
  history ← quizhistories db !! id;
  if (History._id history =? id)%nat then Some history else None.

(** What an awaited call does when the storage layer accepts it.  A [save]
    writes the paths the handler assigned ([points], resp. [analytics]) to the
    stored document and fails when that document is gone. *)
Definition perform {X} (env : Env) (op : DbOp X) (db : Db) : Db * Completion X :=
  match op in DbOp X return Db * Completion X with
  | Quiz_findById id =>
      (db, Normal (find_quiz db id))
  | QuizHistory_create fields =>
      let history := created env db fields in
      (set_quizhistories (<[History._id history := history]> (quizhistories db)) db,
       Normal history)
  | User_incrementUsage user =>
      let usage := incrementUsage_taken env (User.usage user) in
      match find_user db (User._id user) with
      | Some _ =>
          (set_users (alter (with_usage usage) (User._id user) (users db)) db,
           Normal (with_usage usage user))
      | None => (db, Thrown StorageError)
      end
  | User_save user =>
      match find_user db (User._id user) with
      | Some _ =>
          (set_users
             (alter (with_points (User.points user)) (User._id user) (users db)) db,
           Normal tt)
      | None => (db, Thrown StorageError)
      end
  | Quiz_save quiz =>
      match find_quiz db (Quiz._id quiz) with
      | Some _ =>
          (set_quizzes
             (alter (with_analytics (Quiz.analytics quiz)) (Quiz._id quiz) (quizzes db)) db,
           Normal tt)
      | None => (db, Thrown StorageError)
      end
  | QuizHistory_findById_populated id =>
      (db,
       Normal (history ← find_history db id;
               Some {|
                 Populated.doc := history;
                 Populated.quiz := find_quiz db (History.quiz history);
                 Populated.user := find_user db (History.user history)
               |}))
  end.

Definition exec {X} (env : Env) (op : DbOp X) (db : Db) : Db * Completion X :=
  if rejects env (point_of op) then (db, Thrown StorageError)
  else perform env op db.

(** ** Handlers as trees of awaited operations *)

Inductive Prog (A : Type) : Type :=
| Ret (a : A)
| Throw (e : Error)
| Await {X : Type} (op : DbOp X) (k : Completion X -> Prog A).
Arguments Ret {A} a.
Arguments Throw {A} e.
Arguments Await {A X} op k.

Definition lift {A} (c : Completion A) : Prog A :=
  match c with
  | Normal a => Ret a
  | Thrown e => Throw e
  end.

Fixpoint bind {A B} (p : Prog A) (f : A -> Prog B) : Prog B :=
  match p with
  | Ret a => f a
  | Throw e => Throw e
  | Await op k => Await op (fun c => bind (k c) f)
  end.

(** [try { p } catch (error) { handler }] *)
Fixpoint try_catch {A} (p : Prog A) (handler : Error -> Prog A) : Prog A :=
  match p with
  | Ret a => Ret a
  | Throw e => handler e
  | Await op k => Await op (fun c => try_catch (k c) handler)
  end.

(** [const x = await op; ...]: a rejected promise throws at the [await]. *)
Definition await {X} (op : DbOp X) : Prog X := Await op lift.

#[global] Instance prog_ret : MRet Prog := @Ret.
#[global] Instance prog_bind : MBind Prog := fun A B f p => bind p f.

(** A request handled without interruption. *)
Fixpoint run {A} (env : Env) (p : Prog A) (db : Db) : Db * Completion A :=
  match p with
  | Ret a => (db, Normal a)
  | Throw e => (db, Thrown e)
  | Await op k =>
      let '(db', c) := exec env op db in
      run env (k c) db'
  end.

(** Requests in flight together: the event loop resumes one of them at a
    time, and a resumed request runs up to its next [await]. *)
Definition resume {A} (env : Env) (i : nat) (st : Db * list (Prog A))
  : Db * list (Prog A) :=
  let '(db, tasks) := st in
  match tasks !! i with
  | Some (Await op k) =>
      let '(db', c) := exec env op db in
      (db', <[i := k c]> tasks)
  | _ => st
  end.

Definition interleave {A} (env : Env) (schedule : list nat)
    (st : Db * list (Prog A)) : Db * list (Prog A) :=
  foldl (fun st i => resume env i st) st schedule.

(** ** Responses *)

#[local] Unset Elimination Schemes.
Inductive json : Type :=
| JNull
| JBool (b : bool)
| JNumber (n : number)
| JString (s : string)
| JObjectId (id : nat)
| JDate (d : Date.t)
| JArray (items : list json)
| JObject (fields : list (string * json)).
#[local] Set Elimination Schemes.

Fixpoint get_field (key : string) (fields : list (string * json)) : option json :=
  match fields with
  | [] => None
  | (k, v) :: rest => if String.eqb k key then Some v else get_field key rest
  end.

(** [obj.key = v] on a plain object. *)
Fixpoint set_field (key : string) (v : json) (fields : list (string * json))
  : list (string * json) :=
  match fields with
  | [] => [(key, v)]
  | (k, w) :: rest =>
      if String.eqb k key then (k, v) :: rest else (k, w) :: set_field key v rest
  end.

Definition member (key : string) (j : json) : option json :=
  match j with
  | JObject fields => get_field key fields
  | _ => None
  end.

Record Response := {
  status : nat;
  body : json
}.

(** [res.status(code).json({ success, message })] *)
Definition respond_message (code : nat) (success : bool) (message : string) : Response :=
  {| status := code;
     body := JObject [("success", JBool success); ("message", JString message)] |}.

(** ** POST /api/history - save quiz attempt *)

Module PostBody.
Record t := {
  quizId : nat;
  answers : option (list value);
  timeTaken : NumberPath
}.
End PostBody.

Module PostRequest.
Record t := {
  user : User.t;
  body : PostBody.t
}.
End PostRequest.

(** The destructuring default [timeTaken = 0] applies to [undefined] only. *)
Definition timeTaken_or_default (v : NumberPath) : NumberPath :=
  match v with
  | Absent => Stored (Num.of_Z 0)
  | _ => v
  end.

Definition attempt_of (req : PostRequest.t) (quiz : Quiz.t) (g : Graded) : Attempt.t :=
  let n := Z.of_nat (length (Quiz.questions quiz)) in
  {|
    Attempt.user := User._id (PostRequest.user req);
    Attempt.quiz := Quiz._id quiz;
    Attempt.answers := detailedAnswers (tally g);
    Attempt.score := score (tally g);
    Attempt.percentage := percentage g;
    Attempt.totalQuestions := n;
    Attempt.correctAnswers := correctAnswers (tally g);
    Attempt.incorrectAnswers := (n - correctAnswers (tally g))%Z;
    Attempt.timeTaken := timeTaken_or_default (PostBody.timeTaken (PostRequest.body req));
    Attempt.passed := passed g
  |}.

(** [totalAttempts += 1] and the new [averageScore], in that order. *)
Definition record_attempt (percentage : number) (a : Analytics.t) : Analytics.t :=
  let totalAttempts := (Analytics.totalAttempts a + 1)%Z in
  {|
    Analytics.totalAttempts := totalAttempts;
    Analytics.averageScore :=
      ((Analytics.averageScore a * Num.of_Z (totalAttempts - 1) + percentage)
         / Num.of_Z totalAttempts)%num
  |}.

Definition attempt_saved (history : History.t) : Response :=
  {| status := 201;
     body := JObject [
       ("success", JBool true);
       ("message", JString "Attempt saved");
       ("data", JObject [("historyId", JObjectId (History._id history))])
     ] |}.

Definition post_history_body (req : PostRequest.t) : Prog Response :=
  quiz ← await (Quiz_findById (PostBody.quizId (PostRequest.body req)));
  match quiz with
  | None => Ret (respond_message 404 false "Quiz not found")
  | Some quiz =>
      g ← lift (grade quiz (PostBody.answers (PostRequest.body req)));
      history ← await (QuizHistory_create (attempt_of req quiz g));
      user ← await (User_incrementUsage (PostRequest.user req));
      await (User_save (with_points (User.points user + score (tally g))%Z user));;
      await (Quiz_save
               (with_analytics (record_attempt (percentage g) (Quiz.analytics quiz)) quiz));;
      Ret (attempt_saved history)
  end.

Definition post_history (req : PostRequest.t) : Prog Response :=
  try_catch (post_history_body req)
    (fun _ => Ret (respond_message 500 false "Failed to save history")).

(** ** GET /api/history/:id - get specific history by ID *)

Module GetRequest.
Record t := {
  user : User.t;
  id : nat
}.
End GetRequest.

(** [canViewExplanations] and [explanationsUnlockAt] as the handler leaves them. *)
Record Lock := {
  canViewExplanations : bool;
  explanationsUnlockAt : option Date.t
}.

Definition unlocked : Lock :=
  {| canViewExplanations := true; explanationsUnlockAt := None |}.

(** [new Date(undefined)] is the invalid date. *)
Definition completedAt_date (history : History.t) : Date.t :=
  match History.completedAt history with
  | Some d => d
  | None => Date.new Num.NaN
  end.

Definition explanation_lock (quiz : option Quiz.t) (history : History.t)
  : Completion Lock :=
  match quiz with
  | Some quiz =>
      let quizTimeLimitMinutes := Number (Quiz.timeLimit quiz) in
      let attemptTimeTakenSeconds := Number (History.timeTaken history) in
      if Num.isFinite quizTimeLimitMinutes
         && (quizTimeLimitMinutes >? Num.of_Z 0)%num
         && Num.isFinite attemptTimeTakenSeconds
         && (attemptTimeTakenSeconds >=? Num.of_Z 0)%num
      then
        let quizTimeLimitSeconds := (quizTimeLimitMinutes * Num.of_Z 60)%num in
        let remainingSeconds := (quizTimeLimitSeconds - attemptTimeTakenSeconds)%num in
        if (remainingSeconds >? Num.of_Z 0)%num then
          let completedAt := completedAt_date history in
          let unlockAt :=
            Date.new (Date.getTime completedAt + remainingSeconds * Num.of_Z 1000)%num in
          (* the "LOCKED until" log line formats the date *)
          match Date.toISOString unlockAt with
          | Thrown e => Thrown e
          | Normal _ =>
              Normal {| canViewExplanations := false;
                        explanationsUnlockAt := Some unlockAt |}
          end
        else Normal unlocked
      else Normal unlocked
  | None => Normal unlocked
  end.

Definition json_of_number_path (v : NumberPath) : json :=
  match v with
  | Stored n => JNumber n
  | _ => JNull
  end.

Definition json_of_date (d : option Date.t) : json :=
  match d with
  | Some d => JDate d
  | None => JNull
  end.

Definition json_of_string (s : option string) : json :=
  match s with
  | Some s => JString s
  | None => JNull
  end.

Definition json_of_value (v : value) : json :=
  match v with
  | VUndefined | VNull => JNull
  | VBool b => JBool b
  | VNum z => JNumber (Num.of_Z z)
  | VStr s => JString s
  end.

Definition json_of_detailed (d : Detailed.t) : json :=
  JObject [
    ("questionId", JObjectId (Detailed.questionId d));
    ("userAnswer", json_of_value (Detailed.userAnswer d));
    ("isCorrect", JBool (Detailed.isCorrect d));
    ("pointsEarned", JNumber (Num.of_Z (Detailed.pointsEarned d)));
    ("correctAnswer", json_of_string (Detailed.correctAnswer d));
    ("explanation", json_of_string (Detailed.explanation d))
  ].

Definition json_of_quiz (quiz : option Quiz.t) : json :=
  match quiz with
  | Some quiz =>
      JObject [
        ("_id", JObjectId (Quiz._id quiz));
        ("title", JString (Quiz.title quiz));
        ("timeLimit", json_of_number_path (Quiz.timeLimit quiz));
        ("passingScore", JNumber (Quiz.passingScore quiz))
      ]
  | None => JNull
  end.

(** [history.toObject({ virtuals: true })], on the paths carried here. *)
Definition toObject (history : Populated.t) (owner : User.t) : list (string * json) :=
  let doc := Populated.doc history in
  [
    ("_id", JObjectId (History._id doc));
    ("user", JObject [("_id", JObjectId (User._id owner))]);
    ("quiz", json_of_quiz (Populated.quiz history));
    ("answers", JArray (map json_of_detailed (History.answers doc)));
    ("score", JNumber (Num.of_Z (History.score doc)));
    ("percentage", JNumber (History.percentage doc));
    ("totalQuestions", JNumber (Num.of_Z (History.totalQuestions doc)));
    ("correctAnswers", JNumber (Num.of_Z (History.correctAnswers doc)));
    ("incorrectAnswers", JNumber (Num.of_Z (History.incorrectAnswers doc)));
    ("timeTaken", json_of_number_path (History.timeTaken doc));
    ("passed", JBool (History.passed doc));
    ("completedAt", json_of_date (History.completedAt doc))
  ].

Definition history_details (historyObj : list (string * json)) : Response :=
  {| status := 200;
     body := JObject [
       ("success", JBool true);
       ("data", JObject [("history", JObject historyObj)])
     ] |}.

Definition get_history_body (req : GetRequest.t) : Prog Response :=
  history ← await (QuizHistory_findById_populated (GetRequest.id req));
  match history with
  | None => Ret (respond_message 404 false "History not found")
  | Some history =>
      match Populated.user history with
      | None => Throw TypeError
      | Some owner =>
          if negb (User._id owner =? User._id (GetRequest.user req))%nat
             && negb (String.eqb (User.role (GetRequest.user req)) "admin")
          then Ret (respond_message 403 false "Not authorized")
          else
            let historyObj := toObject history owner in
            lock ← lift (explanation_lock (Populated.quiz history) (Populated.doc history));
            Ret (history_details
                   (set_field "explanationsUnlockAt"
                      (json_of_date (explanationsUnlockAt lock))
                      (set_field "canViewExplanations"
                         (JBool (canViewExplanations lock)) historyObj)))
      end
  end.

Definition get_history (req : GetRequest.t) : Prog Response :=
  try_catch (get_history_body req)
    (fun _ => Ret (respond_message 500 false "Failed to fetch history details")).

(** ** Grading, by position *)

Definition Zsum (l : list Z) : Z := foldr Z.add 0%Z l.

(** An answer set holds strings; a position may be missing or [null]. *)
Definition is_string_or_nullish (v : value) : bool :=
  match v with
  | VUndefined | VNull | VStr _ => true
  | VBool _ | VNum _ => false
  end.


(** A string lower-cased and trimmed; nothing for a value that is no string. *)
Definition folded (v : value) : option string :=
  match v with
  | VStr s => Some (trim (toLowerCase s))
  | _ => None
  end.

(** Whether the answer at a position counts as correct. *)
Definition graded_correct (question : Question.t) (userAnswer : value) : bool :=
  match check_answer question userAnswer with
  | Normal b => b
  | Thrown _ => false
  end.

(** The breakdown of the questions [qs], which sit at positions [i], [i+1], ... *)
Definition breakdown_from (answers : option (list value)) (i : nat)
    (qs : list Question.t) : list Detailed.t :=
  imap (fun j question =>
          let userAnswer := opt_index answers (i + j) in
          detail question userAnswer (graded_correct question userAnswer)) qs.

Definition count_correct (ds : list Detailed.t) : Z :=
  Z.of_nat (length (List.filter Detailed.isCorrect ds)).

Definition points_earned (ds : list Detailed.t) : Z :=
  Zsum (Detailed.pointsEarned <$> ds).

(** The points of the questions answered correctly, by position. *)
Definition points_of_correct (answers : option (list value))
    (qs : list Question.t) : Z :=
  Zsum (imap (fun i question =>
                if graded_correct question (opt_index answers i)
                then Question.points question else 0%Z) qs).

(** The number of questions answered correctly, by position. *)
Definition number_correct (answers : option (list value))
    (qs : list Question.t) : Z :=
  Zsum (imap (fun i question =>
                if graded_correct question (opt_index answers i)
                then 1%Z else 0%Z) qs).


(** ** GET /api/history - the requester's history, by page *)

(** The value of a digit in a radix of at most 36. *)
Definition digit_value (radix : Z) (c : ascii) : option Z :=
  let n := Z.of_nat (nat_of_ascii c) in
  let v :=
    if (48 <=? n)%Z && (n <=? 57)%Z then Some (n - 48)%Z
    else if (97 <=? n)%Z && (n <=? 122)%Z then Some (n - 87)%Z
    else if (65 <=? n)%Z && (n <=? 90)%Z then Some (n - 55)%Z
    else None in
  match v with
  | Some d => if (d <? radix)%Z then Some d else None
  | None => None
  end.

(** The value of the longest prefix of digits, [acc] being the value of the
    digits read so far, if any. *)
Fixpoint parse_digits (radix : Z) (s : string) (acc : option Z) : option Z :=
  match s with
  | EmptyString => acc
  | String c r =>
      match digit_value radix c with
      | Some d => parse_digits radix r (Some (radix * default 0 acc + d)%Z)
      | None => acc
      end
  end.

(** [parseInt(s)] with no radix: leading white space is skipped, then a sign
    and a ["0x"] or ["0X"] prefix; what follows the digits is ignored, and
    with no digit the result is NaN. *)
Definition parseInt (s : string) : number :=
  let s := trimStart s in
  let '(sign, s) :=
    match s with
    | String "-" r => ((-1)%Z, r)
    | String "+" r => (1%Z, r)
    | _ => (1%Z, s)
    end in
  let '(radix, s) :=
    match s with
    | String "0" (String "x" r) | String "0" (String "X" r) => (16%Z, r)
    | _ => (10%Z, s)
    end in
  match parse_digits radix s None with
  | Some z => Num.of_Z (sign * z)
  | None => Num.NaN
  end.

(** [req.query], on the two parameters the handler reads: each is absent or
    a string. *)
Module Query.
Record t := {
  page : option string;
  limit : option string
}.
End Query.

Module ListRequest.
Record t := {
  user : User.t;
  query : Query.t
}.
End ListRequest.

(** [const { page = 1, limit = 10 } = req.query; parseInt(page)] *)
Definition pageNum (query : Query.t) : number :=
  match Query.page query with
  | Some page => parseInt page
  | None => Num.of_Z 1
  end.

Definition limitNum (query : Query.t) : number :=
  match Query.limit query with
  | Some limit => parseInt limit
  | None => Num.of_Z 10
  end.

(** [(pageNum - 1) * limitNum] *)
Definition skip_of (pageNum limitNum : number) : number :=
  ((pageNum - Num.of_Z 1) * limitNum)%num.

(** An entry of the legacy collection, on the selected paths. *)
Module Legacy.
Record t := {
  _id : nat;
  user : nat;
  quiz : nat;
  percentage : number
}.
End Legacy.

(** The documents of the collection of history records. *)
Definition documents (db : Db) : list History.t :=
  omap (fun entry : nat * History.t =>
          if (History._id entry.2 =? entry.1)%nat then Some entry.2 else None)
    (map_to_list (quizhistories db)).

(** [{ $match: { user } }] *)
Definition match_user (user : nat) (docs : list History.t) : list History.t :=
  filter (fun history => History.user history = user) docs.

(** The number a stage is given, when it is a whole number. *)
Definition whole (x : number) : option Z :=
  match x with
  | Num.Fin q => if Qeq_bool q (inject_Z (Qfloor q)) then Some (Qfloor q) else None
  | _ => None
  end.

(** The largest 64-bit integer. *)
Definition max_long : Z := 9223372036854775807.

(** [$skip] takes a whole number of at least 0, [$limit] one of at least 1;
    the store rejects the pipeline otherwise. *)
Definition skip_argument (x : number) : option nat :=
  match whole x with
  | Some z => if (0 <=? z)%Z && (z <=? max_long)%Z then Some (Z.to_nat z) else None
  | None => None
  end.

Definition limit_argument (x : number) : option nat :=
  match whole x with
  | Some z => if (1 <=? z)%Z && (z <=? max_long)%Z then Some (Z.to_nat z) else None
  | None => None
  end.

(** [$lookup] of the quiz, then [$unwind]: a record whose quiz is gone is
    dropped. *)
Definition lookup_unwind (db : Db) (history : History.t)
  : option (History.t * Quiz.t) :=
  match find_quiz db (History.quiz history) with
  | Some quizInfo => Some (history, quizInfo)
  | None => None
  end.

(** The one document a [$facet] yields. *)
Record Facets := {
  metadata : list Z;
  data : list (History.t * Quiz.t)
}.

(** Which of the two awaited calls the storage layer rejects. *)
Record ListFaults := {
  aggregate_rejected : bool;
  legacy_find_rejected : bool
}.

(** [$project], on the paths carried here. *)
Definition json_of_entry (entry : History.t * Quiz.t) : json :=
  let '(history, quizInfo) := entry in
  JObject [
    ("_id", JObjectId (History._id history));
    ("score", JNumber (Num.of_Z (History.score history)));
    ("percentage", JNumber (History.percentage history));
    ("passed", JBool (History.passed history));
    ("quiz", JObject [
       ("_id", JObjectId (Quiz._id quizInfo));
       ("title", JString (Quiz.title quizInfo))
     ])
  ].

(** [.select('_id quiz percentage createdAt')], on the paths carried here. *)
Definition json_of_legacy (entry : Legacy.t) : json :=
  JObject [
    ("_id", JObjectId (Legacy._id entry));
    ("quiz", JObjectId (Legacy.quiz entry));
    ("percentage", JNumber (Legacy.percentage entry))
  ].

Definition history_page (history : list (History.t * Quiz.t))
    (legacy : list Legacy.t) (pageNum limitNum : number) (total : Z) : Response :=
  {| status := 200;
     body := JObject [
       ("success", JBool true);
       ("data", JObject [
          ("history", JArray (json_of_entry <$> history));
          ("legacy", JArray (json_of_legacy <$> legacy));
          ("pagination", JObject [
             ("page", JNumber pageNum);
             ("limit", JNumber limitNum);
             ("total", JNumber (Num.of_Z total))
           ])
        ])
     ] |}.

Section Listing.

(** The two [sort({ createdAt: -1 })]: the creation timestamps are not among
    the paths carried here, so the orders are parameters. *)
Variable newest_first : list History.t -> list History.t.
Variable newest_legacy_first : list Legacy.t -> list Legacy.t.

(** [$match] and [$sort]: what the two facets are computed from. *)
Definition matched (db : Db) (user : nat) : list History.t :=
  newest_first (match_user user (documents db)).

(** [QuizHistory.aggregate([...])]: [$count] yields no document on an empty
    input. *)
Definition aggregate (db : Db) (user : nat) (skip limit : number)
  : Completion Facets :=
  match skip_argument skip, limit_argument limit with
  | Some s, Some l =>
      let sorted := matched db user in
      Normal {|
        metadata :=
          match sorted with
          | [] => []
          | _ => [Z.of_nat (length sorted)]
          end;
        data := omap (lookup_unwind db) (take l (drop s sorted))
      |}
  | _, _ => Thrown StorageError
  end.

(** [LegacyQuizHistory.find({ user }).sort({ createdAt: -1 }).limit(3)] *)
Definition legacy_find (legacy : list Legacy.t) (user : nat) : list Legacy.t :=
  take 3 (newest_legacy_first
            (filter (fun entry => Legacy.user entry = user) legacy)).

Definition get_list_body (faults : ListFaults) (req : ListRequest.t)
    (db : Db) (legacy : list Legacy.t) : Completion Response :=
  let pageNum := pageNum (ListRequest.query req) in
  let limitNum := limitNum (ListRequest.query req) in
  let skip := skip_of pageNum limitNum in
  let user := User._id (ListRequest.user req) in
  if aggregate_rejected faults then Thrown StorageError
  else
    match aggregate db user skip limitNum with
    | Thrown e => Thrown e
    | Normal result =>
        let history := data result in
        let total :=
          match metadata result with
          | first :: _ => first
          | [] => 0%Z
          end in
        if legacy_find_rejected faults then Thrown StorageError
        else
          Normal (history_page history (legacy_find legacy user)
                    pageNum limitNum total)
    end.

Definition get_list (faults : ListFaults) (req : ListRequest.t)
    (db : Db) (legacy : list Legacy.t) : Response :=
  match get_list_body faults req db legacy with
  | Normal resp => resp
  | Thrown _ => respond_message 500 false "Failed to fetch history"
  end.

End Listing.

(** * Vocabulary of the statements *)

(** ** The effects of a submission, one by one *)

Definition after_create (env : Env) (req : PostRequest.t) (quiz : Quiz.t)
    (g : Graded) (db : Db) : Db :=
  let history := created env db (attempt_of req quiz g) in
  set_quizhistories (<[History._id history := history]> (quizhistories db)) db.

Definition after_usage (env : Env) (req : PostRequest.t) (db : Db) : Db :=
  let user := PostRequest.user req in
  set_users
    (alter (with_usage (incrementUsage_taken env (User.usage user)))
       (User._id user) (users db)) db.

Definition after_points (req : PostRequest.t) (g : Graded) (db : Db) : Db :=
  let user := PostRequest.user req in
  set_users
    (alter (with_points (User.points user + score (tally g))%Z)
       (User._id user) (users db)) db.

Definition after_analytics (quiz : Quiz.t) (g : Graded) (db : Db) : Db :=
  set_quizzes
    (alter (with_analytics (record_attempt (percentage g) (Quiz.analytics quiz)))
       (Quiz._id quiz) (quizzes db)) db.

Definition committed (env : Env) (req : PostRequest.t) (quiz : Quiz.t)
    (g : Graded) (db : Db) : Db :=
  after_analytics quiz g
    (after_points req g (after_usage env req (after_create env req quiz g db))).

Definition failed_to_save : Response :=
  respond_message 500 false "Failed to save history".

Definition accepts_all (env : Env) : Prop :=
  forall point, rejects env point = false.


(** Submissions handled one after the other, each with its own clock and
    storage faults. *)
Fixpoint submit_all (subs : list (Env * PostRequest.t)) (db : Db)
  : Db * list (Completion Response) :=
  match subs with
  | [] => (db, [])
  | (env, req) :: rest =>
      let '(db1, r) := run env (post_history req) db in
      let '(db2, rs) := submit_all rest db1 in
      (db2, r :: rs)
  end.



Definition total (l : list number) : number := foldr Num.add (Num.of_Z 0) l.




(** The response a request has sent, once it has. *)
Definition response_status (p : Prog Response) : option nat :=
  match p with
  | Ret resp => Some (status resp)
  | _ => None
  end.

(** [body.data.key] *)
Definition data_member (key : string) (resp : Response) : option json :=
  data ← member "data" (body resp);
  member key data.

(** The explanations of an attempt are locked: the quiz has a finite time
    limit above 0 (minutes), the attempt took a finite time of at least 0
    (seconds), and some of the time limit was left. *)
Definition time_locked (quiz : option Quiz.t) (history : History.t) : Prop :=
  exists q tl tt,
    quiz = Some q
    /\ Number (Quiz.timeLimit q) = Num.Fin tl
    /\ Number (History.timeTaken history) = Num.Fin tt
    /\ (0 < tl /\ 0 <= tt /\ 0 < tl * 60 - tt)%Q.

(** The analytics stored for a quiz. *)
Definition analytics_are (db : Db) (id : nat) (count : Z) (average : number) : Prop :=
  exists quiz,
    find_quiz db id = Some quiz
    /\ Analytics.totalAttempts (Quiz.analytics quiz) = count
    /\ Analytics.averageScore (Quiz.analytics quiz) ≃ average.

(** The percentage stored in a history record. *)
Definition percentage_is (db : Db) (id : nat) (p : number) : Prop :=
  exists history,
    find_history db id = Some history /\ History.percentage history ≃ p.

(** ** Sample data *)

Module Sample.

Definition q_mcq : Question.t := {|
  Question._id := 1;
  Question.type := "mcq";
  Question.options :=
    [ {| Opt.text := "Rome"; Opt.isCorrect := false |};
      {| Opt.text := "Paris"; Opt.isCorrect := true |};
      {| Opt.text := "Lyon"; Opt.isCorrect := true |} ];
  Question.correctAnswer := Some "Paris";
  Question.explanation := Some "The capital of France.";
  Question.points := 10
|}.

Definition q_short : Question.t := {|
  Question._id := 2;
  Question.type := "short-answer";
  Question.options := [];
  Question.correctAnswer := Some "Paris";
  Question.explanation := None;
  Question.points := 5
|}.

Definition q_true_false : Question.t := {|
  Question._id := 3;
  Question.type := "true-false";
  Question.options := [];
  Question.correctAnswer := Some "True";
  Question.explanation := None;
  Question.points := 2
|}.

(** A multiple-choice question none of whose options is flagged. *)
Definition q_unflagged : Question.t := {|
  Question._id := 4;
  Question.type := "mcq";
  Question.options :=
    [ {| Opt.text := "Rome"; Opt.isCorrect := false |};
      {| Opt.text := "Paris"; Opt.isCorrect := false |} ];
  Question.correctAnswer := None;
  Question.explanation := None;
  Question.points := 10
|}.

(** Questions that name no expected answer. *)
Definition q_true_false_unkeyed : Question.t := {|
  Question._id := 5;
  Question.type := "true-false";
  Question.options := [];
  Question.correctAnswer := None;
  Question.explanation := None;
  Question.points := 2
|}.

Definition q_short_unkeyed : Question.t := {|
  Question._id := 6;
  Question.type := "short-answer";
  Question.options := [];
  Question.correctAnswer := None;
  Question.explanation := None;
  Question.points := 5
|}.

Definition fresh_analytics : Analytics.t :=
  {| Analytics.totalAttempts := 0; Analytics.averageScore := Num.of_Z 0 |}.

Definition quiz_of (id : nat) (questions : list Question.t) : Quiz.t := {|
  Quiz._id := id;
  Quiz.title := "Capitals";
  Quiz.questions := questions;
  Quiz.timeLimit := Stored (Num.of_Z 10);
  Quiz.passingScore := Num.of_Z 60;
  Quiz.analytics := fresh_analytics
|}.

(** Two questions of weights 10 and 5, passing score 60. *)
Definition quiz : Quiz.t := quiz_of 7 [q_mcq; q_short].
Definition mixed_quiz : Quiz.t := quiz_of 8 [q_mcq; q_true_false; q_short].
Definition empty_quiz : Quiz.t := quiz_of 9 [].
Definition unkeyed_quiz : Quiz.t :=
  quiz_of 10 [q_unflagged; q_true_false_unkeyed; q_short_unkeyed].

Definition user_of (id : nat) : User.t := {|
  User._id := id;
  User.role := "student";
  User.points := 0;
  User.usage := {| Usage.quizzesTaken := 0; Usage.lastQuizDate := None |}
|}.

Definition alice : User.t := user_of 3.
Definition bob : User.t := user_of 4.

Definition db : Db := {|
  quizzes := {[ 7%nat := quiz; 8%nat := mixed_quiz; 9%nat := empty_quiz;
                10%nat := unkeyed_quiz ]};
  quizhistories := ∅;
  users := {[ 3%nat := alice; 4%nat := bob ]}
|}.

Definition noon : Date.t := Date.new (Num.of_Z 1700000000000).

Definition env : Env := {| now := noon; rejects := fun _ => false |}.

(** The storage layer rejects the update of the user's usage counters. *)
Definition env_usage_rejected : Env := {|
  now := noon;
  rejects := fun point =>
    match point with AtIncrementUsage => true | _ => false end
|}.

Definition post (user : User.t) (quizId : nat) (answers : list value)
  : PostRequest.t := {|
  PostRequest.user := user;
  PostRequest.body := {|
    PostBody.quizId := quizId;
    PostBody.answers := Some answers;
    PostBody.timeTaken := Stored (Num.of_Z 120)
  |}
|}.

(** Question 1 right, question 2 wrong. *)
Definition half_right : list value := [VStr "Paris"; VStr "London"].
Definition all_right : list value := [VStr "Paris"; VStr " paris "].

Definition none_right : list value := [VStr "Rome"; VStr "London"].

(** A number where the short-answer question expects a string. *)
Definition number_answer : list value := [VStr "Paris"; VNum 42].


(** Two requests in flight together, and the order in which the event
    loop resumes them: each runs up to its next [await], in turn. *)
Definition racing : list (Prog Response) :=
  [ post_history (post alice 7 all_right);
    post_history (post bob 7 none_right) ].

Definition round_robin : list nat := [0; 1; 0; 1; 0; 1; 0; 1; 0; 1]%nat.

(** A submission that goes through. *)
Definition submission : PostRequest.t := post alice 7 half_right.

Definition response_of (c : Completion Response) : Response :=
  match c with
  | Normal resp => resp
  | Thrown _ => {| status := 0; body := JNull |}
  end.

Definition saved : Response :=
  Eval vm_compute in response_of (run env (post_history submission) db).2.

(** The store after [submission]: the attempt took 120 s of the 10 min. *)
Definition db_after : Db :=
  Eval vm_compute in (run env (post_history submission) db).1.


Definition read : GetRequest.t :=
  {| GetRequest.user := alice; GetRequest.id := 0 |}.

Definition details : Response :=
  Eval vm_compute in response_of (run env (get_history read) db_after).2.

Definition result_of (c : Completion Graded) : Graded :=
  match c with
  | Normal g => g
  | Thrown _ =>
      {| tally := empty_tally; percentage := Num.NaN; passed := false |}
  end.

Definition half_right_grade : Graded :=
  Eval vm_compute in result_of (grade quiz (Some half_right)).


End Sample.

(** ** More vocabulary: outcomes of the handlers *)

Definition quiz_not_found : Response :=
  respond_message 404 false "Quiz not found".

(** The store after the first [n] writes of a submission. *)
Definition after_writes (n : nat) (env : Env) (req : PostRequest.t)
    (quiz : Quiz.t) (g : Graded) (db : Db) : Db :=
  match n with
  | 0%nat => db
  | 1%nat => after_create env req quiz g db
  | 2%nat => after_usage env req (after_create env req quiz g db)
  | 3%nat => after_points req g (after_usage env req (after_create env req quiz g db))
  | _ => committed env req quiz g db
  end.

(** How a submission can end: with 404, no quiz and nothing written; with
    500 and nothing written; or, the quiz found and the answers graded, with
    500 after one, two or three of the writes, or with 201 after all four. *)
Definition submission_outcome (env : Env) (req : PostRequest.t) (db : Db)
    (out : Db * Completion Response) : Prop :=
  let quizId := PostBody.quizId (PostRequest.body req) in
  let answers := PostBody.answers (PostRequest.body req) in
  (find_quiz db quizId = None
   /\ rejects env AtQuizFind = false
   /\ out = (db, Normal quiz_not_found))
  \/ (out = (db, Normal failed_to_save)
      /\ (rejects env AtQuizFind = true
          \/ exists quiz,
               find_quiz db quizId = Some quiz
               /\ ((exists e, grade quiz answers = Thrown e)
                   \/ rejects env AtHistoryCreate = true)))
  \/ exists quiz g,
       find_quiz db quizId = Some quiz
       /\ grade quiz answers = Normal g
       /\ rejects env AtQuizFind = false
       /\ rejects env AtHistoryCreate = false
       /\ ((exists n, (1 <= n <= 3)%nat
            /\ out = (after_writes n env req quiz g db, Normal failed_to_save))
           \/ (is_Some (find_user db (User._id (PostRequest.user req)))
               /\ out = (committed env req quiz g db,
                         Normal (attempt_saved
                                   (created env db (attempt_of req quiz g)))))).

(** Every character is white space. *)
Fixpoint all_white_space (s : string) : bool :=
  match s with
  | EmptyString => true
  | String c r => is_white_space c && all_white_space r
  end.

(** The points a quiz has to give. *)
Definition total_points (qs : list Question.t) : Z :=
  Zsum (Question.points <$> qs).

Definition history_not_found : Response :=
  respond_message 404 false "History not found".

Definition not_authorized : Response :=
  respond_message 403 false "Not authorized".

Definition failed_to_fetch_details : Response :=
  respond_message 500 false "Failed to fetch history details".

(** The requester may read a record of [owner]. *)
Definition may_read (requester owner : User.t) : Prop :=
  User._id owner = User._id requester \/ User.role requester = "admin"%string.

(** The answer that returns the record [doc] of [owner] with the lock [lock]. *)
Definition details_of (db : Db) (doc : History.t) (owner : User.t) (lock : Lock)
  : Response :=
  history_details
    (set_field "explanationsUnlockAt" (json_of_date (explanationsUnlockAt lock))
       (set_field "canViewExplanations" (JBool (canViewExplanations lock))
          (toObject
             {| Populated.doc := doc;
                Populated.quiz := find_quiz db (History.quiz doc);
                Populated.user := Some owner |}
             owner))).

(** How the read of one record can end: 500 when the fetch is rejected; 404
    when there is no such record; 500 when the user of the record is gone;
    403 for a requester who may not read it; otherwise 500 when computing
    the lock throws, and 200 with the record and its lock when it does not. *)
Definition read_outcome (env : Env) (req : GetRequest.t) (db : Db)
    (resp : Response) : Prop :=
  (rejects env AtHistoryFind = true /\ resp = failed_to_fetch_details)
  \/ (rejects env AtHistoryFind = false
      /\ ((find_history db (GetRequest.id req) = None /\ resp = history_not_found)
          \/ exists doc,
               find_history db (GetRequest.id req) = Some doc
               /\ ((find_user db (History.user doc) = None
                    /\ resp = failed_to_fetch_details)
                   \/ exists owner,
                        find_user db (History.user doc) = Some owner
                        /\ ((~ may_read (GetRequest.user req) owner
                             /\ resp = not_authorized)
                            \/ (may_read (GetRequest.user req) owner
                                /\ let quiz := find_quiz db (History.quiz doc) in
                                   ((exists e, explanation_lock quiz doc = Thrown e)
                                    /\ resp = failed_to_fetch_details)
                                   \/ exists lock,
                                        explanation_lock quiz doc = Normal lock
                                        /\ resp = details_of db doc owner lock))))).

Definition failed_to_fetch_history : Response :=
  respond_message 500 false "Failed to fetch history".

(** The largest whole number below which every whole number is a JavaScript
    number ([Number.MAX_SAFE_INTEGER]). *)
Definition max_safe : Z := 9007199254740991.

(** The entries of page [p] of the history of [user], [l] to a page. *)
Definition page_entries (newest_first : list History.t -> list History.t)
    (db : Db) (user : nat) (p l : Z) : list (History.t * Quiz.t) :=
  match aggregate newest_first db user
          (skip_of (Num.of_Z p) (Num.of_Z l)) (Num.of_Z l) with
  | Normal result => data result
  | Thrown _ => []
  end.

(** The collection of records gains exactly one record, of [user], so that
    the [total] of the list of [user] grows by one. *)
Definition adds_one_record (user : nat) (db db' : Db) : Prop :=
  exists history,
    documents db' ≡ₚ history :: documents db
    /\ History.user history = user
    /\ length (match_user user (documents db'))
       = S (length (match_user user (documents db))).

(** ** More sample data *)

Module Example.

(** The storage layer rejects [quiz.save()]. *)
Definition env_quiz_save_rejected : Env := {|
  now := Sample.noon;
  rejects := fun point => match point with AtQuizSave => true | _ => false end
|}.

(** A second submission, by another user, after [Sample.submission]. *)
Definition second : PostRequest.t := Sample.post Sample.bob 7 Sample.all_right.

(** A submission to a quiz that does not exist. *)
Definition to_unknown_quiz : PostRequest.t :=
  Sample.post Sample.alice 99 Sample.half_right.

(** What [Sample.all_right] is graded with. *)
Definition all_right_grade : Graded :=
  Eval vm_compute in Sample.result_of (grade Sample.quiz (Some Sample.all_right)).

(** A read of the record [id] by [user] *)
Definition read_by (user : User.t) (id : nat) : GetRequest.t :=
  {| GetRequest.user := user; GetRequest.id := id |}.

(** The store after [Sample.submission], the users gone. *)
Definition db_orphaned : Db := set_users ∅ Sample.db_after.

(** A record of alice on [Sample.quiz] that took 120 s of the 10 min and
    holds no completion date. *)
Definition undated : History.t := {|
  History._id := 1;
  History.user := 3;
  History.quiz := 7;
  History.answers := [];
  History.score := 0;
  History.percentage := Num.of_Z 0;
  History.totalQuestions := 2;
  History.correctAnswers := 0;
  History.incorrectAnswers := 2;
  History.timeTaken := Stored (Num.of_Z 120);
  History.passed := false;
  History.completedAt := None
|}.

Definition db_undated : Db := set_quizhistories {[ 1%nat := undated ]} Sample.db.

(** A record of [user] on [quiz]. *)
Definition record_of (id user quiz : nat) : History.t := {|
  History._id := id;
  History.user := user;
  History.quiz := quiz;
  History.answers := [];
  History.score := 0;
  History.percentage := Num.of_Z 0;
  History.totalQuestions := 2;
  History.correctAnswers := 0;
  History.incorrectAnswers := 2;
  History.timeTaken := Stored (Num.of_Z 700);
  History.passed := false;
  History.completedAt := Some Sample.noon
|}.

(** Four records of alice, the third on a quiz that is gone, and one of bob. *)
Definition db_listed : Db :=
  set_quizhistories
    {[ 0%nat := record_of 0 3 7; 1%nat := record_of 1 3 8;
       2%nat := record_of 2 3 99; 3%nat := record_of 3 4 7;
       4%nat := record_of 4 3 7 ]}
    Sample.db.

Definition legacy_of (id user : nat) : Legacy.t :=
  {| Legacy._id := id; Legacy.user := user; Legacy.quiz := 7;
     Legacy.percentage := Num.of_Z 50 |}.

Definition legacy : list Legacy.t :=
  [ legacy_of 0 3; legacy_of 1 4; legacy_of 2 3; legacy_of 3 3; legacy_of 4 3 ].

(** The records held last first, the identifiers growing with time. *)
Fixpoint insert_by_id (history : History.t) (l : list History.t) : list History.t :=
  match l with
  | [] => [history]
  | x :: rest =>
      if (History._id x <=? History._id history)%nat then history :: l
      else x :: insert_by_id history rest
  end.

Definition newest_first (l : list History.t) : list History.t :=
  foldr insert_by_id [] l.

Fixpoint insert_legacy_by_id (entry : Legacy.t) (l : list Legacy.t) : list Legacy.t :=
  match l with
  | [] => [entry]
  | x :: rest =>
      if (Legacy._id x <=? Legacy._id entry)%nat then entry :: l
      else x :: insert_legacy_by_id entry rest
  end.

Definition newest_legacy_first (l : list Legacy.t) : list Legacy.t :=
  foldr insert_legacy_by_id [] l.

Definition no_faults : ListFaults :=
  {| aggregate_rejected := false; legacy_find_rejected := false |}.

Definition list_by (user : User.t) (page limit : option string) : ListRequest.t :=
  {| ListRequest.user := user;
     ListRequest.query := {| Query.page := page; Query.limit := limit |} |}.

(** Page 2 of alice's history, two to a page. *)
Definition second_page : Response :=
  Eval vm_compute in
    get_list newest_first newest_legacy_first no_faults
      (list_by Sample.alice (Some "2") (Some "2")) db_listed legacy.

(** What the aggregation yields for alice's first ten records. *)
Definition first_facets : Facets :=
  Eval vm_compute in
    match aggregate newest_first db_listed 3 (Num.of_Z 0) (Num.of_Z 10) with
    | Normal result => result
    | Thrown _ => {| metadata := []; data := [] |}
    end.

End Example.
(** * Lemmas *)

(** ** Facts about values and strings *)



Lemma opt_toLowerCase_trim_folded (v : value) :
  is_string_or_nullish v = true ->
  opt_toLowerCase_trim v = Normal (of_field (folded v)).
Proof. by destruct v. Qed.


(** ** Facts about the grading loop *)



Lemma check_answer_fallback (question : Question.t) (userAnswer : value) :
  is_mcq question = false -> is_true_false question = false ->
  is_string_or_nullish userAnswer = true ->
  check_answer question userAnswer
  = Normal (strict_eq (of_field (folded userAnswer))
              (of_field (folded (of_field (Question.correctAnswer question))))).
Proof.
  unfold check_answer. intros -> -> Hv.
  rewrite (opt_toLowerCase_trim_folded _ Hv).
  by destruct (Question.correctAnswer question).
Qed.


Lemma breakdown_from_cons answers i question qs :
  breakdown_from answers i (question :: qs)
  = detail question (opt_index answers i)
      (graded_correct question (opt_index answers i))
    :: breakdown_from answers (S i) qs.
Proof.
  unfold breakdown_from. rewrite imap_cons, Nat.add_0_r. f_equal.
  apply imap_ext. intros j q _. simpl. by rewrite Nat.add_succ_r.
Qed.

Lemma length_breakdown_from answers i qs :
  length (breakdown_from answers i qs) = length qs.
Proof. apply length_imap. Qed.

Lemma lookup_breakdown_from answers i qs j :
  breakdown_from answers i qs !! j
  = (fun question =>
       detail question (opt_index answers (i + j))
         (graded_correct question (opt_index answers (i + j)))) <$> qs !! j.
Proof. unfold breakdown_from. by rewrite list_lookup_imap. Qed.

Lemma count_correct_cons d ds :
  count_correct (d :: ds)
  = ((if Detailed.isCorrect d then 1 else 0) + count_correct ds)%Z.
Proof. unfold count_correct. simpl. destruct (Detailed.isCorrect d); simpl; lia. Qed.

Lemma points_earned_cons d ds :
  points_earned (d :: ds) = (Detailed.pointsEarned d + points_earned ds)%Z.
Proof. reflexivity. Qed.

(** The loop, when it completes, has pushed the breakdown of its questions and
    added their count and their points to the locals. *)
Lemma forEach_from_Normal answers qs :
  forall i acc acc',
    forEach_from answers qs i acc = Normal acc' ->
    detailedAnswers acc' = detailedAnswers acc ++ breakdown_from answers i qs
    /\ correctAnswers acc'
       = (correctAnswers acc + count_correct (breakdown_from answers i qs))%Z
    /\ score acc'
       = (score acc + points_earned (breakdown_from answers i qs))%Z.
Proof.
  induction qs as [|question qs IH]; intros i acc acc'; simpl.
  - intros [= <-]. unfold breakdown_from, count_correct, points_earned. simpl.
    rewrite app_nil_r. split_and!; [done|lia..].
  - unfold grade_step, graded_correct.
    destruct (check_answer question (opt_index answers i)) as [b|e] eqn:Hb; [|done].
    intros H. apply IH in H as (Hd & Hc & Hs). simpl in Hd, Hc, Hs.
    rewrite breakdown_from_cons, count_correct_cons, points_earned_cons.
    unfold graded_correct. rewrite Hb, Hd, Hc, Hs, <- app_assoc. simpl.
    split; [done|]. destruct b; lia.
Qed.


Lemma count_correct_imap (u : nat -> value) (c : nat -> Question.t -> bool) qs :
  count_correct (imap (fun j question => detail question (u j) (c j question)) qs)
  = Zsum (imap (fun j question => if c j question then 1%Z else 0%Z) qs).
Proof.
  revert u c. induction qs as [|question qs IH]; intros u c; [done|].
  rewrite !imap_cons, count_correct_cons. simpl. f_equal.
  apply (IH (u ∘ S) (fun j => c (S j))).
Qed.

Lemma points_earned_imap (u : nat -> value) (c : nat -> Question.t -> bool) qs :
  points_earned (imap (fun j question => detail question (u j) (c j question)) qs)
  = Zsum (imap (fun j question =>
                  if c j question then Question.points question else 0%Z) qs).
Proof.
  revert u c. induction qs as [|question qs IH]; intros u c; [done|].
  rewrite !imap_cons, points_earned_cons. simpl. f_equal.
  apply (IH (u ∘ S) (fun j => c (S j))).
Qed.

Lemma count_correct_breakdown answers qs :
  count_correct (breakdown_from answers 0 qs) = number_correct answers qs.
Proof.
  apply (count_correct_imap (opt_index answers)
           (fun j question => graded_correct question (opt_index answers j))).
Qed.

Lemma points_earned_breakdown answers qs :
  points_earned (breakdown_from answers 0 qs) = points_of_correct answers qs.
Proof.
  apply (points_earned_imap (opt_index answers)
           (fun j question => graded_correct question (opt_index answers j))).
Qed.

(** The percentage of a quiz with a question is a finite number. *)
Lemma percentage_finite (c : Z) (n : nat) :
  n <> 0%nat ->
  (Num.of_Z c / Num.of_Z (Z.of_nat n) * Num.of_Z 100)%num
  = Num.Fin (inject_Z c / inject_Z (Z.of_nat n) * inject_Z 100).
Proof.
  intros Hn. unfold Num.of_Z. simpl.
  destruct (Qeq_bool (inject_Z (Z.of_nat n)) 0) eqn:Hz; [|done].
  apply Qeq_bool_eq in Hz. unfold Qeq in Hz. simpl in Hz. lia.
Qed.

Lemma grade_Normal quiz answers g :
  grade quiz answers = Normal g ->
  let qs := Quiz.questions quiz in
  detailedAnswers (tally g) = breakdown_from answers 0 qs
  /\ correctAnswers (tally g) = number_correct answers qs
  /\ score (tally g) = points_of_correct answers qs
  /\ percentage g
     = (Num.of_Z (number_correct answers qs) / Num.of_Z (Z.of_nat (length qs))
        * Num.of_Z 100)%num
  /\ passed g = (percentage g >=? Quiz.passingScore quiz)%num.
Proof.
  unfold grade.
  destruct (forEach_from answers (Quiz.questions quiz) 0 empty_tally)
    as [t|e] eqn:Hloop; [|done].
  intros [= <-]. apply forEach_from_Normal in Hloop as (Hd & Hc & Hs).
  simpl in *. rewrite count_correct_breakdown in Hc.
  rewrite points_earned_breakdown in Hs.
  rewrite Hd, Hs, Hc. by rewrite !Z.add_0_l.
Qed.


(** ** Facts about running a handler *)

Lemma run_bind {A B} env (p : Prog A) (f : A -> Prog B) db :
  run env (bind p f) db
  = match run env p db with
    | (db', Normal a) => run env (f a) db'
    | (db', Thrown e) => (db', Thrown e)
    end.
Proof.
  revert db. induction p as [a|e|X op k IH]; intros db; simpl; [done..|].
  destruct (exec env op db) as [db' c]. apply IH.
Qed.

Lemma run_try_catch {A} env (p : Prog A) (handler : Error -> Prog A) db :
  run env (try_catch p handler) db
  = match run env p db with
    | (db', Normal a) => (db', Normal a)
    | (db', Thrown e) => run env (handler e) db'
    end.
Proof.
  revert db. induction p as [a|e|X op k IH]; intros db; simpl; [done..|].
  destruct (exec env op db) as [db' c]. apply IH.
Qed.

Lemma run_await {X} env (op : DbOp X) db :
  run env (await op) db = exec env op db.
Proof.
  unfold await. simpl. destruct (exec env op db) as [db' [x|e]]; done.
Qed.

Lemma run_lift {A} env (c : Completion A) db : run env (lift c) db = (db, c).
Proof. by destruct c. Qed.

Lemma run_await_bind {X B} env (op : DbOp X) (f : X -> Prog B) db :
  run env (bind (await op) f) db
  = match exec env op db with
    | (db', Normal x) => run env (f x) db'
    | (db', Thrown e) => (db', Thrown e)
    end.
Proof. by rewrite run_bind, run_await. Qed.

Ltac await_step :=
  rewrite run_await_bind; unfold exec at 1, point_of at 1, perform at 1;
  cbv beta iota.

Ltac on_rejects :=
  match goal with
  | |- context [if rejects ?env ?point then _ else _] =>
      destruct (rejects env point) eqn:?; cbv beta iota
  end.

Ltac on_find :=
  match goal with
  | |- context [match find_user ?db ?id with Some _ => _ | None => _ end] =>
      destruct (find_user db id) eqn:?; cbv beta iota
  | |- context [match find_quiz ?db ?id with Some _ => _ | None => _ end] =>
      destruct (find_quiz db id) eqn:?; cbv beta iota
  end.

Ltac not_201 := simpl; intros ? ?; simplify_eq.

Lemma find_user_alter (f : User.t -> User.t) db id :
  (forall user, User._id (f user) = User._id user) ->
  find_user (set_users (alter f id (users db)) db) id = f <$> find_user db id.
Proof.
  intros Hid. unfold find_user. simpl. rewrite lookup_alter_eq.
  destruct (users db !! id) as [user|]; simpl; [|done].
  rewrite Hid. by destruct (User._id user =? id)%nat.
Qed.

Lemma find_quiz_alter (f : Quiz.t -> Quiz.t) db id :
  (forall quiz, Quiz._id (f quiz) = Quiz._id quiz) ->
  find_quiz (set_quizzes (alter f id (quizzes db)) db) id = f <$> find_quiz db id.
Proof.
  intros Hid. unfold find_quiz. simpl. rewrite lookup_alter_eq.
  destruct (quizzes db !! id) as [quiz|]; simpl; [|done].
  rewrite Hid. by destruct (Quiz._id quiz =? id)%nat.
Qed.

Lemma find_quiz_id db id quiz : find_quiz db id = Some quiz -> Quiz._id quiz = id.
Proof.
  unfold find_quiz. destruct (quizzes db !! id) as [q|]; simpl; [|done].
  destruct (Quiz._id q =? id)%nat eqn:Hid; [|done].
  intros [= <-]. by apply Nat.eqb_eq.
Qed.

Lemma post_history_201 env req db db' resp :
  run env (post_history req) db = (db', Normal resp) ->
  status resp = 201%nat ->
  exists quiz g,
    find_quiz db (PostBody.quizId (PostRequest.body req)) = Some quiz
    /\ grade quiz (PostBody.answers (PostRequest.body req)) = Normal g
    /\ db' = committed env req quiz g db
    /\ resp = attempt_saved (created env db (attempt_of req quiz g)).
Proof.
  unfold post_history. rewrite run_try_catch.
  unfold post_history_body, mbind, prog_bind.
  await_step. on_rejects; [not_201|].
  destruct (find_quiz db _) as [quiz|] eqn:Hquiz; cbv beta iota; [|not_201].
  rewrite run_bind, run_lift.
  destruct (grade quiz _) as [g|e] eqn:Hg; cbv beta iota; [|not_201].
  await_step. on_rejects; [not_201|].
  await_step. on_rejects; [not_201|]. on_find; [|not_201].
  await_step. on_rejects; [not_201|]. on_find; [|not_201].
  await_step. on_rejects; [not_201|]. on_find; [|not_201].
  simpl. intros [= <- <-] _. by exists quiz, g.
Qed.

Lemma find_user_set_quizhistories m db id :
  find_user (set_quizhistories m db) id = find_user db id.
Proof. reflexivity. Qed.

Lemma find_quiz_set_quizhistories m db id :
  find_quiz (set_quizhistories m db) id = find_quiz db id.
Proof. reflexivity. Qed.

Lemma find_quiz_set_users m db id :
  find_quiz (set_users m db) id = find_quiz db id.
Proof. reflexivity. Qed.

Lemma post_history_commits env req db quiz g :
  accepts_all env ->
  find_quiz db (PostBody.quizId (PostRequest.body req)) = Some quiz ->
  grade quiz (PostBody.answers (PostRequest.body req)) = Normal g ->
  is_Some (find_user db (User._id (PostRequest.user req))) ->
  run env (post_history req) db
  = (committed env req quiz g db,
     Normal (attempt_saved (created env db (attempt_of req quiz g)))).
Proof.
  intros Hacc Hquiz Hg [u Hu].
  unfold post_history. rewrite run_try_catch.
  unfold post_history_body, mbind, prog_bind.
  await_step. rewrite Hacc, Hquiz. cbv beta iota.
  rewrite run_bind, run_lift, Hg. cbv beta iota.
  await_step. rewrite Hacc. cbv beta iota.
  await_step. rewrite Hacc, find_user_set_quizhistories, Hu. cbv beta iota.
  await_step. rewrite Hacc. cbv beta iota.
  change (User._id (with_points _ (with_usage _ ?user))) with (User._id user).
  rewrite find_user_alter, find_user_set_quizhistories, Hu by done.
  cbv beta iota. simpl fmap. cbv beta iota.
  await_step. rewrite Hacc. cbv beta iota.
  rewrite !find_quiz_set_users, find_quiz_set_quizhistories.
  change (Quiz._id (with_analytics _ quiz)) with (Quiz._id quiz).
  assert (find_quiz db (Quiz._id quiz) = Some quiz) as ->
    by by rewrite (find_quiz_id _ _ _ Hquiz).
  reflexivity.
Qed.





(** A missing answer is graded incorrect when the question names an expected
    answer. *)
Lemma missing_answer_incorrect (question : Question.t) :
  (is_mcq question = true ->
   is_Some (find Opt.isCorrect (Question.options question))) ->
  (is_mcq question = false -> is_Some (Question.correctAnswer question)) ->
  graded_correct question VUndefined = false.
Proof.
  intros Hm Hc. unfold graded_correct, check_answer, correctOption_text.
  destruct (is_mcq question).
  - by destruct (Hm eq_refl) as [o ->].
  - destruct (Hc eq_refl) as [c ->]. by destruct (is_true_false question).
Qed.

(** A candidate answer that is neither a string nor nullish has no
    [toLowerCase]: on a short-answer question the callback throws and the
    request is answered 500 with nothing written. *)
Lemma non_string_answer_throws :
  grade Sample.quiz (Some Sample.number_answer) = Thrown TypeError
  /\ run Sample.env (post_history (Sample.post Sample.alice 7 Sample.number_answer))
       Sample.db
     = (Sample.db, Normal failed_to_save).
Proof. split; vm_compute; reflexivity. Qed.

(** ** Facts about the stored analytics *)

Lemma find_quiz_committed env req quiz g db id :
  find_quiz db id = Some quiz ->
  find_quiz (committed env req quiz g db) id
  = Some (with_analytics (record_attempt (percentage g) (Quiz.analytics quiz)) quiz).
Proof.
  intros Hq. pose proof (find_quiz_id _ _ _ Hq) as Hid.
  unfold committed, after_analytics. rewrite Hid, find_quiz_alter by done.
  unfold after_points, after_usage, after_create.
  by rewrite !find_quiz_set_users, find_quiz_set_quizhistories, Hq.
Qed.



Lemma grade_with_analytics analytics quiz answers :
  grade (with_analytics analytics quiz) answers = grade quiz answers.
Proof. reflexivity. Qed.




(** ** Facts about the stored histories *)

Lemma find_history_committed env req quiz g db :
  let history := created env db (attempt_of req quiz g) in
  find_history (committed env req quiz g db) (History._id history) = Some history.
Proof.
  intros history. unfold find_history, committed, after_analytics, after_points,
    after_usage, after_create. simpl.
  rewrite lookup_insert_eq. simpl. by rewrite Nat.eqb_refl.
Qed.

Lemma created_is_new env db fields :
  quizhistories db !! History._id (created env db fields) = None.
Proof.
  simpl. apply not_elem_of_dom. apply is_fresh.
Qed.

(** ** The two ways of running a handler agree *)

Lemma interleave_alone {A} env (p : Prog A) db :
  exists n,
    interleave env (replicate n 0%nat) (db, [p])
    = ((run env p db).1, [lift (run env p db).2]).
Proof.
  revert db. induction p as [a|e|X op k IH]; intros db.
  - by exists 0%nat.
  - by exists 0%nat.
  - destruct (exec env op db) as [db1 c] eqn:Hexec.
    destruct (IH c db1) as [n Hn]. exists (S n).
    unfold interleave in *. simpl. rewrite Hexec. simpl. exact Hn.
Qed.

(** ** Facts about the explanation lock *)

Lemma gt_Fin (a b : Q) : (Num.Fin a >? Num.Fin b)%num = true <-> (b < a)%Q.
Proof.
  unfold Num.gt. simpl. rewrite (Qgt_alt a b).
  destruct (a ?= b)%Q; split; congruence.
Qed.

Lemma ge_Fin (a b : Q) : (Num.Fin a >=? Num.Fin b)%num = true <-> (b <= a)%Q.
Proof.
  unfold Num.ge. simpl. rewrite (Qge_alt a b).
  destruct (a ?= b)%Q; split; congruence.
Qed.

Lemma gt_zero (a : Q) : (Num.Fin a >? Num.of_Z 0)%num = true <-> (0 < a)%Q.
Proof. apply (gt_Fin a 0). Qed.

Lemma ge_zero (a : Q) : (Num.Fin a >=? Num.of_Z 0)%num = true <-> (0 <= a)%Q.
Proof. apply (ge_Fin a 0). Qed.


Lemma get_field_set_field_ne key key' v fields :
  key <> key' ->
  get_field key' (set_field key v fields) = get_field key' fields.
Proof.
  intros Hne. induction fields as [|[k w] fields IH]; simpl.
  - by apply String.eqb_neq in Hne as ->.
  - destruct (String.eqb k key) eqn:Hk; simpl.
    + apply String.eqb_eq in Hk as ->.
      by apply String.eqb_neq in Hne as ->.
    + by rewrite IH.
Qed.




(** The lock computation throws only on the locked path, when the unlock
    date is not a valid date. *)
Lemma explanation_lock_Thrown quiz history e :
  explanation_lock quiz history = Thrown e ->
  time_locked quiz history
  /\ forall completed,
       Date.getTime (completedAt_date history) = Num.Fin completed ->
       exists tl tt,
         Number (History.timeTaken history) = Num.Fin tt
         /\ (forall q, quiz = Some q -> Number (Quiz.timeLimit q) = Num.Fin tl)
         /\ ~ (Qabs (completed + (tl * 60 - tt) * 1000) <= Date.max_time)%Q.
Proof.
  intros Hlock. unfold explanation_lock in Hlock. destruct quiz as [q|]; [|done].
  destruct (Number (Quiz.timeLimit q)) as [tl| | |] eqn:Htl; simpl in Hlock;
    try done.
  destruct (Number (History.timeTaken history)) as [tt| | |] eqn:Htt;
    simpl in Hlock; rewrite ?Bool.andb_false_r in Hlock; try done.
  rewrite Bool.andb_true_r in Hlock.
  destruct (Num.Fin tl >? Num.of_Z 0)%num eqn:G1; simpl in Hlock; [|done].
  destruct (Num.Fin tt >=? Num.of_Z 0)%num eqn:G2; simpl in Hlock; [|done].
  destruct (Num.Fin (tl * inject_Z 60 + - tt) >? Num.of_Z 0)%num eqn:G3; [|done].
  apply gt_zero in G1, G3. apply ge_zero in G2.
  split; [by exists q, tl, tt|].
  intros completed Hc. exists tl, tt. split; [done|].
  split; [by intros ? [= <-]|].
  rewrite Hc in Hlock. unfold Date.new, Date.toISOString in Hlock.
  cbn [Date.getTime Num.add Num.mul Num.of_Z Date.TimeClip] in Hlock.
  destruct (Qle_bool (Qabs (completed + (tl * inject_Z 60 + - tt) * inject_Z 1000))
              Date.max_time) eqn:Hrange; [done|].
  intros Hle. apply Qle_bool_iff in Hle.
  change (Qle_bool (Qabs (completed + (tl * inject_Z 60 + - tt) * inject_Z 1000))
            Date.max_time = true) in Hle.
  congruence.
Qed.

(** ** Facts about reading a history record *)





(** A read by the owner or an admin returns the record whenever the lock
    computation completes. *)
Lemma get_history_returns env req db doc owner lock :
  rejects env AtHistoryFind = false ->
  find_history db (GetRequest.id req) = Some doc ->
  find_user db (History.user doc) = Some owner ->
  User._id owner = User._id (GetRequest.user req)
  \/ User.role (GetRequest.user req) = "admin"%string ->
  explanation_lock (find_quiz db (History.quiz doc)) doc = Normal lock ->
  exists resp,
    run env (get_history req) db = (db, Normal resp) /\ status resp = 200%nat.
Proof.
  intros Hfind Hdoc Howner Hmay Hlock.
  unfold get_history. rewrite run_try_catch.
  unfold get_history_body, mbind at 1, prog_bind.
  await_step. rewrite Hfind, Hdoc. simpl. rewrite Howner.
  assert (negb (User._id owner =? User._id (GetRequest.user req))%nat
          && negb (String.eqb (User.role (GetRequest.user req)) "admin") = false)
    as ->.
  { destruct Hmay as [-> | ->]; [by rewrite Nat.eqb_refl|].
    by rewrite Bool.andb_false_r. }
  unfold mbind, prog_bind. rewrite run_bind, run_lift, Hlock. simpl.
  by eexists.
Qed.

(** * The claims *)

(** C1 (what the code does).  The three writes are not one atomic unit: when
    the update of the user's usage counters is rejected after the history
    record has been inserted, the handler answers the generic 500 "Failed to
    save history" and the store keeps the inserted record, with the user and
    the quiz untouched. *)
Theorem rejected_stats_update_leaves_history env req db quiz g :
  rejects env AtQuizFind = false ->
  find_quiz db (PostBody.quizId (PostRequest.body req)) = Some quiz ->
  grade quiz (PostBody.answers (PostRequest.body req)) = Normal g ->
  rejects env AtHistoryCreate = false ->
  rejects env AtIncrementUsage = true ->
  run env (post_history req) db
  = (after_create env req quiz g db, Normal failed_to_save).
Proof.
  intros Hfind Hquiz Hg Hcreate Husage.
  unfold post_history. rewrite run_try_catch.
  unfold post_history_body, mbind, prog_bind.
  await_step. rewrite Hfind, Hquiz. cbv beta iota.
  rewrite run_bind, run_lift, Hg. cbv beta iota.
  await_step. rewrite Hcreate. cbv beta iota.
  await_step. rewrite Husage. reflexivity.
Qed.

Lemma rejected_stats_update_leaves_history_witness :
  let req := Sample.post Sample.alice 7 Sample.half_right in
  let db' := (run Sample.env_usage_rejected (post_history req) Sample.db).1 in
  (run Sample.env_usage_rejected (post_history req) Sample.db).2
  = Normal failed_to_save
  /\ (History.score <$> find_history db' 0) = Some 10%Z
  /\ find_history Sample.db 0 = None
  /\ find_user db' 3 = find_user Sample.db 3
  /\ find_quiz db' 7 = find_quiz Sample.db 7.
Proof.
  intros req db'. subst db'.
  rewrite (rejected_stats_update_leaves_history Sample.env_usage_rejected req
             Sample.db Sample.quiz Sample.half_right_grade);
    [|reflexivity..].
  repeat split; vm_compute; reflexivity.
Defined.





(** C4 (what the code does).  A missing answer is graded as correct when the
    question names no expected answer: [undefined === undefined] holds for a
    multiple-choice question without a flagged option and for a true-false
    or short-answer question without [correctAnswer].  With no answers
    submitted, all three are marked correct and their points awarded. *)
Theorem missing_answer_graded_correct :
  grade Sample.unkeyed_quiz (Some [])
  = Normal {|
      tally := {|
        correctAnswers := 3;
        score := 17;
        detailedAnswers :=
          [ detail Sample.q_unflagged VUndefined true;
            detail Sample.q_true_false_unkeyed VUndefined true;
            detail Sample.q_short_unkeyed VUndefined true ]
      |};
      percentage := Num.Fin (300 # 3);
      passed := true
    |}.
Proof. vm_compute. reflexivity. Qed.

(** C5 (what the code does).  The empty question list is not rejected: the
    division by the question count is unguarded, grading completes with no
    error, and its percentage is NaN. *)
Lemma empty_quiz_not_rejected :
  Quiz.questions Sample.empty_quiz = []
  /\ grade Sample.empty_quiz (Some [VStr "Paris"])
     = Normal {| tally := empty_tally; percentage := Num.NaN; passed := false |}.
Proof. split; reflexivity. Qed.

(** C5, amended.  When the question list of the quiz is empty, grading raises
    no error: it completes with score 0, an empty breakdown, the percentage
    0/0 * 100 = NaN, and [passed = false]. *)
Theorem empty_quiz_grades_to_NaN (quiz : Quiz.t) (answers : option (list value)) :
  Quiz.questions quiz = [] ->
  grade quiz answers
  = Normal {| tally := empty_tally; percentage := Num.NaN; passed := false |}.
Proof. unfold grade. intros ->. reflexivity. Qed.

Lemma empty_quiz_grades_to_NaN_witness :
  Quiz.questions Sample.empty_quiz = []
  /\ grade Sample.empty_quiz None
     = Normal {| tally := empty_tally; percentage := Num.NaN; passed := false |}.
Proof.
  split; [reflexivity|].
  apply (empty_quiz_grades_to_NaN Sample.empty_quiz None). reflexivity.
Defined.



(** C7 (what the code does).  Two submissions to the same quiz whose awaits
    interleave both read [totalAttempts = 0] before either saves: both answer
    201 and two history records exist, yet the stored [totalAttempts] is 1
    and [averageScore] is the percentage of the request that saved last (0),
    not the mean (50).  Handled one after the other, the same two requests
    leave [totalAttempts = 2] and the mean. *)
Theorem interleaved_submissions_lose_an_update :
  let '(db', tasks) :=
    interleave Sample.env Sample.round_robin (Sample.db, Sample.racing) in
  let sequential :=
    (submit_all [ (Sample.env, Sample.post Sample.alice 7 Sample.all_right);
                  (Sample.env, Sample.post Sample.bob 7 Sample.none_right) ]
       Sample.db).1 in
  response_status <$> tasks = [Some 201%nat; Some 201%nat]
  /\ size (quizhistories db') = 2%nat
  /\ percentage_is db' 0 (Num.of_Z 100)
  /\ percentage_is db' 1 (Num.of_Z 0)
  /\ analytics_are db' 7 1 (Num.of_Z 0)
  /\ analytics_are sequential 7 2 (Num.of_Z 50).
Proof.
  vm_compute. split_and!; try reflexivity.
  all: eexists; split_and!; reflexivity.
Qed.

(** C8 (what the code does).  The response to a successful submission holds
    [historyId] and neither [score] nor [percentage] nor [passed]. *)
Lemma saved_response_lacks_score :
  (run Sample.env (post_history Sample.submission) Sample.db).2 = Normal Sample.saved
  /\ status Sample.saved = 201%nat
  /\ data_member "historyId" Sample.saved = Some (JObjectId 0)
  /\ data_member "score" Sample.saved = None
  /\ data_member "percentage" Sample.saved = None
  /\ data_member "passed" Sample.saved = None.
Proof. vm_compute. repeat split; reflexivity. Qed.

(** C8, amended.  On every successful submission the handler answers 201
    with [success: true], the message "Attempt saved" and a [data] object
    holding [historyId] only, the identifier of the record it has inserted;
    [score], [percentage] and [passed] are stored in that record, as graded,
    and are not part of the response. *)
Theorem saved_response_holds_historyId
    (env : Env) (req : PostRequest.t) (db db' : Db) (resp : Response) :
  run env (post_history req) db = (db', Normal resp) ->
  status resp = 201%nat ->
  exists history quiz g,
    body resp
    = JObject [ ("success", JBool true);
                ("message", JString "Attempt saved");
                ("data", JObject [("historyId", JObjectId (History._id history))]) ]
    /\ find_history db (History._id history) = None
    /\ find_history db' (History._id history) = Some history
    /\ find_quiz db (PostBody.quizId (PostRequest.body req)) = Some quiz
    /\ grade quiz (PostBody.answers (PostRequest.body req)) = Normal g
    /\ History.score history = score (tally g)
    /\ History.percentage history = percentage g
    /\ History.passed history = passed g.
Proof.
  intros Hrun Hstatus.
  destruct (post_history_201 _ _ _ _ _ Hrun Hstatus) as (quiz & g & Hq & Hg & -> & ->).
  exists (created env db (attempt_of req quiz g)), quiz, g.
  split_and!; try done.
  - unfold find_history. by rewrite created_is_new.
  - apply find_history_committed.
Qed.

Lemma saved_response_holds_historyId_witness :
  let db' := (run Sample.env (post_history Sample.submission) Sample.db).1 in
  exists history,
    body Sample.saved
    = JObject [ ("success", JBool true);
                ("message", JString "Attempt saved");
                ("data", JObject [("historyId", JObjectId (History._id history))]) ]
    /\ find_history db' (History._id history) = Some history
    /\ History.score history = 10%Z
    /\ History.passed history = false.
Proof.
  intros db'.
  destruct (saved_response_holds_historyId Sample.env Sample.submission
              Sample.db db' Sample.saved)
    as (history & quiz & g & Hbody & _ & Hfind & Hquiz & Hg & Hscore & _ & Hpassed).
  - subst db'. vm_compute. reflexivity.
  - reflexivity.
  - exists history. split; [done|]. split; [done|].
    injection Hquiz as <-.
    assert (Normal g = Normal Sample.half_right_grade) as [= ->]
      by (rewrite <- Hg; vm_compute; reflexivity).
    by rewrite Hscore, Hpassed.
Defined.



(** C10.  The record inserted by a successful submission is consistent: its
    breakdown has one entry per question of the quiz, in question order;
    the [pointsEarned] of an entry are the points of the question when the
    entry is marked correct and 0 otherwise; [correctAnswers +
    incorrectAnswers = totalQuestions], the number of questions; and [score]
    is the sum of [pointsEarned] over the breakdown. *)
Theorem inserted_history_consistent
    (env : Env) (req : PostRequest.t) (db db' : Db) (resp : Response) :
  run env (post_history req) db = (db', Normal resp) ->
  status resp = 201%nat ->
  exists history quiz,
    data_member "historyId" resp = Some (JObjectId (History._id history))
    /\ find_history db' (History._id history) = Some history
    /\ find_quiz db (PostBody.quizId (PostRequest.body req)) = Some quiz
    /\ length (History.answers history) = length (Quiz.questions quiz)
    /\ (forall i question,
          Quiz.questions quiz !! i = Some question ->
          exists d,
            History.answers history !! i = Some d
            /\ Detailed.questionId d = Question._id question
            /\ Detailed.pointsEarned d
               = if Detailed.isCorrect d then Question.points question else 0%Z)
    /\ History.correctAnswers history = count_correct (History.answers history)
    /\ (History.correctAnswers history + History.incorrectAnswers history)%Z
       = History.totalQuestions history
    /\ History.totalQuestions history = Z.of_nat (length (Quiz.questions quiz))
    /\ History.score history = points_earned (History.answers history).
Proof.
  intros Hrun Hstatus.
  destruct (post_history_201 _ _ _ _ _ Hrun Hstatus) as (quiz & g & Hq & Hg & -> & ->).
  exists (created env db (attempt_of req quiz g)), quiz.
  split; [done|]. split; [apply find_history_committed|]. split; [done|].
  pose proof (grade_Normal _ _ _ Hg) as (Hd & Hc & Hs & _).
  cbn [created attempt_of History.answers History.correctAnswers
       History.incorrectAnswers History.totalQuestions History.score
       Attempt.answers Attempt.correctAnswers Attempt.incorrectAnswers
       Attempt.totalQuestions Attempt.score].
  rewrite Hd, Hc, Hs, count_correct_breakdown, points_earned_breakdown.
  split_and!; try done.
  - apply length_breakdown_from.
  - intros i question Hi. eexists. rewrite lookup_breakdown_from, Hi.
    split; [reflexivity|]. done.
  - lia.
Qed.

Lemma inserted_history_consistent_witness :
  let db' := (run Sample.env (post_history Sample.submission) Sample.db).1 in
  exists history,
    find_history db' 0 = Some history
    /\ length (History.answers history) = 2%nat
    /\ (History.correctAnswers history + History.incorrectAnswers history)%Z = 2%Z
    /\ History.score history = points_earned (History.answers history).
Proof.
  intros db'.
  destruct (inserted_history_consistent Sample.env Sample.submission
              Sample.db db' Sample.saved)
    as (history & quiz & Hid & Hfind & Hquiz & Hlen & _ & _ & Hsum & Htotal & Hscore).
  - subst db'. vm_compute. reflexivity.
  - reflexivity.
  - injection Hquiz as <-. injection Hid as Hid.
    exists history. rewrite <- Hid in Hfind. split; [done|]. split; [done|].
    split; [|done]. by rewrite Hsum, Htotal.
Defined.

(** * Further properties of the routes *)

(** ** Every way a submission can end *)

Lemma post_history_outcome env req db :
  submission_outcome env req db (run env (post_history req) db).
Proof.
  remember (run env (post_history req) db) as out eqn:Hrun.
  symmetry in Hrun. revert Hrun. unfold submission_outcome.
  unfold post_history. rewrite run_try_catch.
  unfold post_history_body, mbind, prog_bind.
  await_step. destruct (rejects env AtQuizFind) eqn:R0; cbv beta iota.
  { intros <-. right. left. split; [reflexivity|]. by left. }
  destruct (find_quiz db _) as [quiz|] eqn:Hquiz; cbv beta iota.
  2:{ intros <-. left. split; [done|]. split; [done|]. reflexivity. }
  rewrite run_bind, run_lift.
  destruct (grade quiz _) as [g|e] eqn:Hg; cbv beta iota.
  2:{ intros <-. right. left. split; [reflexivity|]. right. exists quiz.
      split; [done|]. left. by exists e. }
  await_step. destruct (rejects env AtHistoryCreate) eqn:R1; cbv beta iota.
  { intros <-. right. left. split; [reflexivity|]. right. exists quiz.
    split; [done|]. by right. }
  intros Hrun. right. right. exists quiz, g. split_and!; try done.
  revert Hrun.
  await_step. destruct (rejects env AtIncrementUsage) eqn:R2; cbv beta iota.
  { intros <-. left. exists 1%nat. split; [lia|]. reflexivity. }
  destruct (find_user (set_quizhistories _ db) (User._id (PostRequest.user req)))
    as [u|] eqn:Hu; cbv beta iota;
    [|intros <-; left; exists 1%nat; split; [lia|reflexivity]].
  await_step. destruct (rejects env AtUserSave) eqn:R3; cbv beta iota.
  { intros <-. left. exists 2%nat. split; [lia|]. reflexivity. }
  on_find; [|intros <-; left; exists 2%nat; split; [lia|reflexivity]].
  await_step. destruct (rejects env AtQuizSave) eqn:R4; cbv beta iota.
  { intros <-. left. exists 3%nat. split; [lia|]. reflexivity. }
  on_find; [|intros <-; left; exists 3%nat; split; [lia|reflexivity]].
  intros <-. right. split; [by exists u|]. reflexivity.
Qed.

Lemma find_user_alter_ne (f : User.t -> User.t) db id id' :
  id <> id' ->
  find_user (set_users (alter f id (users db)) db) id' = find_user db id'.
Proof. intros Hne. unfold find_user. simpl. by rewrite lookup_alter_ne. Qed.

Lemma find_quiz_alter_ne (f : Quiz.t -> Quiz.t) db id id' :
  id <> id' ->
  find_quiz (set_quizzes (alter f id (quizzes db)) db) id' = find_quiz db id'.
Proof. intros Hne. unfold find_quiz. simpl. by rewrite lookup_alter_ne. Qed.

Lemma with_analytics_same quiz : with_analytics (Quiz.analytics quiz) quiz = quiz.
Proof. by destruct quiz. Qed.

(** The writes of a submission leave the records already stored alone. *)
Lemma find_history_after_writes n env req quiz g db id history :
  find_history db id = Some history ->
  find_history (after_writes n env req quiz g db) id = Some history.
Proof.
  intros Hfind.
  assert (quizhistories db !! id <> None) as Hin.
  { unfold find_history in Hfind. by destruct (quizhistories db !! id). }
  assert (find_history (after_create env req quiz g db) id = Some history) as Hcreate.
  { unfold find_history, after_create. simpl. rewrite lookup_insert_ne; [done|].
    intros Heq. apply Hin. rewrite <- Heq. apply not_elem_of_dom, is_fresh. }
  destruct n as [|[|[|[|n]]]]; done.
Qed.

(** They change no user but the requester. *)
Lemma find_user_after_writes n env req quiz g db id :
  id <> User._id (PostRequest.user req) ->
  find_user (after_writes n env req quiz g db) id = find_user db id.
Proof.
  intros Hne.
  assert (forall d, find_user (after_usage env req d) id = find_user d id) as Husage.
  { intros d. apply find_user_alter_ne. congruence. }
  assert (forall d, find_user (after_points req g d) id = find_user d id) as Hpoints.
  { intros d. apply find_user_alter_ne. congruence. }
  assert (forall d, find_user (after_analytics quiz g d) id = find_user d id)
    as Hanalytics by done.
  destruct n as [|[|[|[|n]]]]; unfold after_writes, committed;
    rewrite ?Hanalytics, ?Hpoints, ?Husage; done.
Qed.

(** They change no quiz but the one submitted to, and of that one the
    analytics only. *)
Lemma find_quiz_after_writes n env req quiz g db id stored :
  find_quiz db id = Some stored ->
  exists analytics,
    find_quiz (after_writes n env req quiz g db) id
    = Some (with_analytics analytics stored)
    /\ (id <> Quiz._id quiz -> analytics = Quiz.analytics stored).
Proof.
  intros Hfind.
  assert (forall m, (m <= 3)%nat ->
            find_quiz (after_writes m env req quiz g db) id = find_quiz db id) as Hsame.
  { intros m Hm. destruct m as [|[|[|[|m]]]]; [done..|lia]. }
  destruct (decide (n <= 3)%nat) as [Hn|Hn].
  { exists (Quiz.analytics stored). by rewrite Hsame, with_analytics_same. }
  replace (after_writes n env req quiz g db) with (committed env req quiz g db)
    by (destruct n as [|[|[|[|n]]]]; [lia..|done]).
  unfold committed, after_analytics.
  destruct (decide (Quiz._id quiz = id)) as [<-|Hne].
  - rewrite find_quiz_alter by done.
    change (find_quiz (after_points _ _ (after_usage _ _ (after_create _ _ _ _ db))) ?i)
      with (find_quiz db i).
    rewrite Hfind. eexists. split; [reflexivity|]. done.
  - rewrite find_quiz_alter_ne by done.
    change (find_quiz (after_points _ _ (after_usage _ _ (after_create _ _ _ _ db))) ?i)
      with (find_quiz db i).
    exists (Quiz.analytics stored). by rewrite with_analytics_same.
Qed.

(** X1.  A submission always gets an answer, and the answer is 201, 404 or
    500: no exception leaves the handler. *)
Theorem post_history_always_answers (env : Env) (req : PostRequest.t) (db : Db) :
  exists resp,
    (run env (post_history req) db).2 = Normal resp
    /\ (status resp = 201 \/ status resp = 404 \/ status resp = 500)%nat.
Proof.
  destruct (post_history_outcome env req db)
    as [(_ & _ & ->) | [(-> & _) | (quiz & g & _ & _ & _ & _ & [(n & _ & ->) | (_ & ->)])]];
    eexists; (split; [reflexivity|]); simpl; auto.
Qed.

(** X2.  The four writes of a submission happen in the order history record,
    usage counters, points, quiz analytics: whatever fails, the store holds
    the first [n] of them for some [n], and the answer is 201 exactly when it
    holds all four. *)
Theorem writes_happen_in_order
    (env : Env) (req : PostRequest.t) (db db' : Db) (resp : Response) :
  run env (post_history req) db = (db', Normal resp) ->
  (db' = db /\ status resp <> 201%nat)
  \/ exists quiz g n,
       find_quiz db (PostBody.quizId (PostRequest.body req)) = Some quiz
       /\ grade quiz (PostBody.answers (PostRequest.body req)) = Normal g
       /\ (1 <= n <= 4)%nat
       /\ db' = after_writes n env req quiz g db
       /\ (status resp = 201%nat <-> n = 4%nat).
Proof.
  intros Hrun. pose proof (post_history_outcome env req db) as Hout.
  rewrite Hrun in Hout.
  destruct Hout
    as [(_ & _ & [= -> ->]) | [([= -> ->] & _) |
        (quiz & g & Hq & Hg & _ & _ & [(n & Hn & [= -> ->]) | (_ & [= -> ->])])]].
  - by left.
  - by left.
  - right. exists quiz, g, n. split_and!; try done; try lia.
    split; [done|lia].
  - right. exists quiz, g, 4%nat. split_and!; try done; lia.
Qed.

Lemma writes_happen_in_order_witness :
  let req := Sample.submission in
  let out := run Example.env_quiz_save_rejected (post_history req) Sample.db in
  out.2 = Normal failed_to_save
  /\ out.1 = after_writes 3 Example.env_quiz_save_rejected req Sample.quiz
               Sample.half_right_grade Sample.db.
Proof.
  intros req out.
  destruct (writes_happen_in_order Example.env_quiz_save_rejected req Sample.db
              out.1 failed_to_save)
    as [[_ Hno] | (quiz & g & n & Hq & Hg & Hn & Hdb & Hiff)].
  - subst out. vm_compute. reflexivity.
  - split; vm_compute; reflexivity.
  - split; vm_compute; reflexivity.
Defined.

(** X3.  A submission to a quiz that does not exist is answered 404 "Quiz not
    found" and writes nothing, whatever the answers. *)
Theorem unknown_quiz_answers_404 (env : Env) (req : PostRequest.t) (db : Db) :
  rejects env AtQuizFind = false ->
  find_quiz db (PostBody.quizId (PostRequest.body req)) = None ->
  run env (post_history req) db = (db, Normal quiz_not_found).
Proof.
  intros Hfind Hnone.
  destruct (post_history_outcome env req db)
    as [(_ & _ & ->) | [(_ & [Hrej | (quiz & Hq & _)]) | (quiz & g & Hq & _)]];
    [done|congruence..].
Qed.

Lemma unknown_quiz_answers_404_witness :
  run Sample.env (post_history Example.to_unknown_quiz) Sample.db
  = (Sample.db, Normal quiz_not_found).
Proof. by apply unknown_quiz_answers_404. Defined.

(** X4.  History records are append-only under submissions: whatever the
    outcome, a record that was stored is still stored, unchanged. *)
Theorem submission_keeps_history_records
    (env : Env) (req : PostRequest.t) (db : Db) (id : nat) (history : History.t) :
  find_history db id = Some history ->
  find_history (run env (post_history req) db).1 id = Some history.
Proof.
  intros Hfind.
  destruct (post_history_outcome env req db)
    as [(_ & _ & ->) | [(-> & _) |
        (quiz & g & _ & _ & _ & _ & [(n & _ & ->) | (_ & ->)])]]; simpl.
  - done.
  - done.
  - by apply find_history_after_writes.
  - by apply (find_history_after_writes 4).
Qed.

Lemma submission_keeps_history_records_witness :
  find_history Sample.db_after 0
  = find_history (run Sample.env (post_history Example.second) Sample.db_after).1 0
  /\ is_Some (find_history Sample.db_after 0).
Proof.
  assert (is_Some (find_history Sample.db_after 0)) as [history Hfind]
    by (vm_compute; by eexists).
  split; [|by exists history].
  by rewrite (submission_keeps_history_records Sample.env Example.second
                Sample.db_after 0 history Hfind).
Defined.

(** X5.  A submission never edits a quiz beyond its analytics: whatever the
    outcome, every stored quiz keeps its questions, passing score and time
    limit, and a quiz other than the one submitted to is left as it was. *)
Theorem submission_keeps_quiz_content
    (env : Env) (req : PostRequest.t) (db : Db) (id : nat) (stored : Quiz.t) :
  find_quiz db id = Some stored ->
  let db' := (run env (post_history req) db).1 in
  (exists analytics, find_quiz db' id = Some (with_analytics analytics stored))
  /\ (id <> PostBody.quizId (PostRequest.body req) -> find_quiz db' id = Some stored).
Proof.
  intros Hfind db'. subst db'.
  assert (forall n quiz g,
            find_quiz db (PostBody.quizId (PostRequest.body req)) = Some quiz ->
            (exists analytics,
               find_quiz (after_writes n env req quiz g db) id
               = Some (with_analytics analytics stored))
            /\ (id <> PostBody.quizId (PostRequest.body req) ->
                find_quiz (after_writes n env req quiz g db) id = Some stored))
    as Hwrites.
  { intros n quiz g Hq. apply find_quiz_id in Hq.
    destruct (find_quiz_after_writes n env req quiz g db id stored Hfind)
      as (analytics & Hq' & Hother).
    split; [by exists analytics|].
    intros Hne. rewrite Hq', Hother by congruence. by rewrite with_analytics_same. }
  destruct (post_history_outcome env req db)
    as [(_ & _ & ->) | [(-> & _) |
        (quiz & g & Hq & _ & _ & _ & [(n & _ & ->) | (_ & ->)])]].
  - split; [|done]. exists (Quiz.analytics stored). by rewrite with_analytics_same.
  - split; [|done]. exists (Quiz.analytics stored). by rewrite with_analytics_same.
  - by apply Hwrites.
  - by apply (Hwrites 4%nat).
Qed.

Lemma submission_keeps_quiz_content_witness :
  let db' := (run Sample.env (post_history Sample.submission) Sample.db).1 in
  find_quiz db' 8 = Some Sample.mixed_quiz
  /\ exists analytics, find_quiz db' 7 = Some (with_analytics analytics Sample.quiz).
Proof.
  intros db'. split.
  - by apply (submission_keeps_quiz_content Sample.env Sample.submission
                Sample.db 8 Sample.mixed_quiz).
  - by apply (submission_keeps_quiz_content Sample.env Sample.submission
                Sample.db 7 Sample.quiz).
Defined.

(** X6.  A submission never touches a user other than the requester,
    whatever the outcome. *)
Theorem submission_leaves_other_users
    (env : Env) (req : PostRequest.t) (db : Db) (id : nat) :
  id <> User._id (PostRequest.user req) ->
  find_user (run env (post_history req) db).1 id = find_user db id.
Proof.
  intros Hne.
  destruct (post_history_outcome env req db)
    as [(_ & _ & ->) | [(-> & _) |
        (quiz & g & _ & _ & _ & _ & [(n & _ & ->) | (_ & ->)])]]; simpl.
  - done.
  - done.
  - by apply find_user_after_writes.
  - by apply (find_user_after_writes 4).
Qed.

Lemma submission_leaves_other_users_witness :
  find_user (run Sample.env (post_history Sample.submission) Sample.db).1 4
  = Some Sample.bob.
Proof.
  by rewrite (submission_leaves_other_users Sample.env Sample.submission Sample.db 4).
Defined.

(** X7.  After a successful submission the stored points of the requester
    are the points of the request's user document plus the score: the value
    stored before plays no part in it. *)
Theorem saved_points_are_request_points_plus_score
    (env : Env) (req : PostRequest.t) (db db' : Db) (resp : Response) :
  run env (post_history req) db = (db', Normal resp) ->
  status resp = 201%nat ->
  exists quiz g stored,
    find_quiz db (PostBody.quizId (PostRequest.body req)) = Some quiz
    /\ grade quiz (PostBody.answers (PostRequest.body req)) = Normal g
    /\ find_user db' (User._id (PostRequest.user req)) = Some stored
    /\ User.points stored
       = (User.points (PostRequest.user req) + score (tally g))%Z.
Proof.
  intros Hrun Hstatus. pose proof (post_history_outcome env req db) as Hout.
  rewrite Hrun in Hout.
  destruct Hout
    as [(_ & _ & [= -> ->]) | [([= -> ->] & _) |
        (quiz & g & Hq & Hg & _ & _ & [(n & Hn & [= -> ->]) | ([u Hu] & [= -> ->])])]];
    try done.
  exists quiz, g. eexists. split; [done|]. split; [done|].
  unfold committed, after_analytics, after_points.
  change (find_user (set_quizzes _ ?d) ?i) with (find_user d i).
  rewrite find_user_alter by done.
  unfold after_usage. rewrite find_user_alter by done.
  change (find_user (after_create _ _ _ _ db) ?i) with (find_user db i).
  rewrite Hu. simpl. split; reflexivity.
Qed.

Lemma saved_points_are_request_points_plus_score_witness :
  exists stored,
    find_user Sample.db_after 3 = Some stored /\ User.points stored = 10%Z.
Proof.
  destruct (saved_points_are_request_points_plus_score Sample.env
              Sample.submission Sample.db Sample.db_after Sample.saved)
    as (quiz & g & stored & Hq & Hg & Hu & Hpoints).
  - vm_compute. reflexivity.
  - reflexivity.
  - exists stored. split; [done|]. rewrite Hpoints.
    injection Hq as <-.
    assert (Normal g = Normal Sample.half_right_grade) as [= ->]
      by (rewrite <- Hg; vm_compute; reflexivity).
    reflexivity.
Defined.

(** ** Grading *)

Lemma check_answer_Thrown (question : Question.t) (userAnswer : value) (e : Error) :
  check_answer question userAnswer = Thrown e
  <-> e = TypeError
      /\ is_mcq question = false
      /\ is_true_false question = false
      /\ is_string_or_nullish userAnswer = false.
Proof.
  unfold check_answer.
  destruct (is_mcq question), (is_true_false question);
    try (split; [done|by intros (_ & ? & ? & _)]).
  destruct (Question.correctAnswer question), userAnswer; simpl;
    (split; [intros [= <-]; done || fail | by intros (-> & _ & _ & ?)])
    || (split; [done|by intros (_ & _ & _ & ?)]).
Qed.

Lemma grade_step_Thrown answers question i acc e :
  grade_step answers question i acc = Thrown e
  <-> check_answer question (opt_index answers i) = Thrown e.
Proof.
  unfold grade_step. destruct (check_answer _ _); [done|].
  split; by intros [= ->].
Qed.

Lemma forEach_from_Thrown answers qs :
  forall i acc e,
    forEach_from answers qs i acc = Thrown e
    <-> e = TypeError
        /\ exists j question,
             qs !! j = Some question
             /\ check_answer question (opt_index answers (i + j)) = Thrown TypeError.
Proof.
  induction qs as [|question qs IH]; intros i acc e; simpl.
  { split; [done|]. by intros (_ & j & q & ? & _). }
  destruct (grade_step answers question i acc) as [acc'|e'] eqn:Hstep.
  - rewrite IH. split.
    + intros (-> & j & q & Hq & Hthrown). split; [done|].
      exists (S j), q. split; [done|]. by rewrite Nat.add_succ_r.
    + intros (-> & [|j] & q & Hq & Hthrown).
      * simpl in Hq. injection Hq as <-. rewrite Nat.add_0_r in Hthrown.
        apply grade_step_Thrown with (acc := acc) in Hthrown. congruence.
      * split; [done|]. exists j, q. split; [done|].
        by rewrite Nat.add_succ_r in Hthrown.
  - apply grade_step_Thrown in Hstep. pose proof Hstep as Hcheck.
    apply check_answer_Thrown in Hstep as (-> & _). split.
    + intros [= <-]. split; [done|]. exists 0%nat, question.
      split; [done|]. by rewrite Nat.add_0_r.
    + by intros (-> & _).
Qed.

(** X8.  Grading raises an error exactly when some question of a type other
    than ["mcq"] and ["true-false"] meets, at its position, an answer that is
    neither a string nor missing nor [null]; the error is a [TypeError], and
    no other answer set makes grading fail. *)
Theorem grading_throws_iff_non_string_short_answer
    (quiz : Quiz.t) (answers : option (list value)) (e : Error) :
  grade quiz answers = Thrown e
  <-> e = TypeError
      /\ exists i question,
           Quiz.questions quiz !! i = Some question
           /\ Question.type question <> "mcq"%string
           /\ Question.type question <> "true-false"%string
           /\ is_string_or_nullish (opt_index answers i) = false.
Proof.
  unfold grade.
  destruct (forEach_from answers (Quiz.questions quiz) 0 empty_tally)
    as [t|e'] eqn:Hloop.
  - split; [done|]. intros (-> & i & question & Hq & Hmcq & Htf & Hanswer).
    assert (forEach_from answers (Quiz.questions quiz) 0 empty_tally
            = Thrown TypeError) as Hthrown; [|congruence].
    apply forEach_from_Thrown. split; [done|]. exists i, question.
    split; [done|]. apply check_answer_Thrown.
    unfold is_mcq, is_true_false. by rewrite !String.eqb_neq.
  - apply forEach_from_Thrown in Hloop as (-> & i & question & Hq & Hcheck).
    apply check_answer_Thrown in Hcheck as (_ & Hmcq & Htf & Hanswer).
    unfold is_mcq, is_true_false in *. rewrite String.eqb_neq in Hmcq, Htf.
    split.
    + intros [= <-]. split; [done|]. by exists i, question.
    + by intros (-> & _).
Qed.

(** X9.  When grading raises an error the request is answered 500 "Failed to
    save history" and nothing is written: no record, no usage, no points, no
    analytics. *)
Theorem grading_error_writes_nothing
    (env : Env) (req : PostRequest.t) (db : Db) (quiz : Quiz.t) (e : Error) :
  rejects env AtQuizFind = false ->
  find_quiz db (PostBody.quizId (PostRequest.body req)) = Some quiz ->
  grade quiz (PostBody.answers (PostRequest.body req)) = Thrown e ->
  run env (post_history req) db = (db, Normal failed_to_save).
Proof.
  intros Hfind Hquiz Hgrade.
  destruct (post_history_outcome env req db)
    as [(Hnone & _) | [(-> & _) | (quiz' & g & Hq & Hg & _)]];
    [congruence|done|congruence].
Qed.

Lemma grading_error_writes_nothing_witness :
  run Sample.env (post_history (Sample.post Sample.alice 7 Sample.number_answer))
    Sample.db
  = (Sample.db, Normal failed_to_save).
Proof.
  apply (grading_error_writes_nothing Sample.env
           (Sample.post Sample.alice 7 Sample.number_answer) Sample.db
           Sample.quiz TypeError); reflexivity.
Defined.

Lemma Zsum_cons (z : Z) (l : list Z) : Zsum (z :: l) = (z + Zsum l)%Z.
Proof. reflexivity. Qed.

Lemma number_correct_bounds (c : nat -> Question.t -> bool) (qs : list Question.t) :
  (0 <= Zsum (imap (fun j question => if c j question then 1 else 0) qs)
   <= Z.of_nat (length qs))%Z.
Proof.
  revert c. induction qs as [|question qs IH]; intros c.
  { simpl. unfold Zsum. simpl. lia. }
  rewrite imap_cons, Zsum_cons. unfold compose. cbv beta.
  specialize (IH (fun j => c (S j))). cbv beta in IH.
  change (length (question :: qs)) with (S (length qs)).
  destruct (c 0%nat question); lia.
Qed.

Lemma points_of_correct_bounds (c : nat -> Question.t -> bool) (qs : list Question.t) :
  Forall (fun question => 0 <= Question.points question)%Z qs ->
  (0 <= Zsum (imap (fun j question =>
                      if c j question then Question.points question else 0) qs)
   <= total_points qs)%Z.
Proof.
  intros Hpoints. revert c.
  induction Hpoints as [|question qs Hq _ IH]; intros c.
  { unfold total_points, Zsum. simpl. lia. }
  rewrite imap_cons, Zsum_cons. unfold total_points. rewrite fmap_cons, Zsum_cons.
  unfold compose. cbv beta.
  specialize (IH (fun j => c (S j))). unfold total_points in IH. cbv beta in IH.
  destruct (c 0%nat question); lia.
Qed.

Lemma ratio_bounds (c n : Z) :
  (0 <= c <= n)%Z -> (0 < n)%Z ->
  (0 <= inject_Z c / inject_Z n * inject_Z 100 <= 100)%Q.
Proof.
  intros [H0 Hn] Hpos.
  assert (0 < inject_Z n)%Q as Hn' by (change 0%Q with (inject_Z 0); by rewrite <- Zlt_Qlt).
  assert (0 <= inject_Z c / inject_Z n)%Q as Hlo.
  { apply Qle_shift_div_l; [done|]. rewrite Qmult_0_l.
    change 0%Q with (inject_Z 0). by rewrite <- Zle_Qle. }
  assert (inject_Z c / inject_Z n <= 1)%Q as Hhi.
  { apply Qle_shift_div_r; [done|]. rewrite Qmult_1_l. by rewrite <- Zle_Qle. }
  split.
  - apply Qmult_le_0_compat; [done|]. by vm_compute.
  - apply Qle_trans with (1 * inject_Z 100)%Q; [|by vm_compute].
    apply Qmult_le_compat_r; [done|]. by vm_compute.
Qed.

Lemma percentage_bounds (quiz : Quiz.t) (answers : option (list value)) (g : Graded) :
  grade quiz answers = Normal g ->
  Quiz.questions quiz <> [] ->
  exists p, percentage g = Num.Fin p /\ (0 <= p <= 100)%Q.
Proof.
  intros Hgrade Hne.
  destruct (grade_Normal _ _ _ Hgrade) as (_ & _ & _ & Hp & _). cbv zeta in Hp.
  rewrite Hp, percentage_finite by (by destruct (Quiz.questions quiz)).
  eexists. split; [reflexivity|].
  apply ratio_bounds; [apply number_correct_bounds|].
  destruct (Quiz.questions quiz); [done|]. simpl length. lia.
Qed.

(** X10.  Whatever grading returns is within bounds: the number of correct
    answers lies between 0 and the number of questions, the breakdown has
    one entry per question, the percentage of a quiz with questions lies
    between 0 and 100, and, the points of the questions being non-negative,
    the score lies between 0 and the points the quiz has to give. *)
Theorem grades_are_within_bounds
    (quiz : Quiz.t) (answers : option (list value)) (g : Graded) :
  grade quiz answers = Normal g ->
  let qs := Quiz.questions quiz in
  (0 <= correctAnswers (tally g) <= Z.of_nat (length qs))%Z
  /\ length (detailedAnswers (tally g)) = length qs
  /\ (qs <> [] -> exists p, percentage g = Num.Fin p /\ (0 <= p <= 100)%Q)
  /\ (Forall (fun question => 0 <= Question.points question)%Z qs ->
      (0 <= score (tally g) <= total_points qs)%Z).
Proof.
  intros Hgrade qs.
  destruct (grade_Normal _ _ _ Hgrade) as (Hd & Hc & Hs & Hp & _). fold qs in Hd, Hc, Hs, Hp.
  assert (0 <= correctAnswers (tally g) <= Z.of_nat (length qs))%Z as Hbounds.
  { rewrite Hc. apply number_correct_bounds. }
  split_and!.
  - lia.
  - lia.
  - by rewrite Hd, length_breakdown_from.
  - intros Hne. by apply (percentage_bounds quiz answers).
  - intros Hpoints. rewrite Hs. by apply points_of_correct_bounds.
Qed.

Lemma grades_are_within_bounds_witness :
  (0 <= score (tally Sample.half_right_grade)
   <= total_points (Quiz.questions Sample.quiz))%Z.
Proof.
  apply (grades_are_within_bounds Sample.quiz (Some Sample.half_right)
           Sample.half_right_grade).
  - vm_compute. reflexivity.
  - repeat constructor; by vm_compute.
Defined.

Lemma Zsum_zeros (l : list Z) : Forall (fun z => z = 0%Z) l -> Zsum l = 0%Z.
Proof. induction 1 as [|z l -> _ IH]; [done|]. by rewrite Zsum_cons, IH. Qed.

Lemma Zsum_ones (l : list Z) :
  Forall (fun z => z = 1%Z) l -> Zsum l = Z.of_nat (length l).
Proof.
  induction 1 as [|z l -> _ IH]; [done|].
  rewrite Zsum_cons, IH. simpl length. lia.
Qed.

Lemma breakdown_marks answers qs (b : bool) :
  Forall (fun d => Detailed.isCorrect d = b) (breakdown_from answers 0 qs) ->
  forall i question,
    qs !! i = Some question ->
    graded_correct question (opt_index answers i) = b.
Proof.
  intros Hall i question Hq.
  rewrite Forall_lookup in Hall.
  apply (Hall i (detail question (opt_index answers i)
                   (graded_correct question (opt_index answers i)))).
  by rewrite lookup_breakdown_from, Hq.
Qed.

(** X11.  The two extremes of grading a quiz with questions.  When every
    entry of the breakdown is marked correct, the score is the sum of the
    points of all questions, the percentage is 100, and the attempt is
    passed iff the passing score is at most 100.  When no entry is marked
    correct, the score is 0, the percentage is 0, and the attempt is passed
    iff the passing score is at most 0. *)
Theorem all_or_nothing_grades
    (quiz : Quiz.t) (answers : option (list value)) (g : Graded) :
  grade quiz answers = Normal g ->
  Quiz.questions quiz <> [] ->
  let qs := Quiz.questions quiz in
  let marked b := Forall (fun d => Detailed.isCorrect d = b) (detailedAnswers (tally g)) in
  (marked true ->
   score (tally g) = total_points qs
   /\ correctAnswers (tally g) = Z.of_nat (length qs)
   /\ percentage g ≃ Num.of_Z 100
   /\ forall ps, Quiz.passingScore quiz = Num.Fin ps ->
                 (passed g = true <-> (ps <= 100)%Q))
  /\ (marked false ->
      score (tally g) = 0%Z
      /\ correctAnswers (tally g) = 0%Z
      /\ percentage g ≃ Num.of_Z 0
      /\ forall ps, Quiz.passingScore quiz = Num.Fin ps ->
                    (passed g = true <-> (ps <= 0)%Q)).
Proof.
  intros Hgrade Hne. cbv zeta.
  destruct (grade_Normal _ _ _ Hgrade) as (Hd & Hc & Hs & Hp & Hpassed).
  cbv zeta in Hd, Hc, Hs, Hp. rewrite Hd. clear Hgrade Hd.
  remember (Quiz.questions quiz) as qs eqn:Hqs in *. clear Hqs.
  rewrite percentage_finite in Hp by (by destruct qs).
  assert (0 < inject_Z (Z.of_nat (length qs)))%Q as Hn.
  { change 0%Q with (inject_Z 0). rewrite <- Zlt_Qlt.
    destruct qs; [done|]. simpl length. lia. }
  split; intros Hall; pose proof (breakdown_marks _ _ _ Hall) as Hmarks.
  - assert (number_correct answers qs = Z.of_nat (length qs)) as Hnumber.
    { unfold number_correct.
      rewrite (imap_ext _ (fun _ _ => 1%Z)) by (intros i q Hq; by rewrite (Hmarks i q Hq)).
      rewrite Zsum_ones; [by rewrite length_imap|].
      apply Forall_lookup. intros i z. rewrite list_lookup_imap.
      destruct (qs !! i); simpl; congruence. }
    assert (percentage g ≃ Num.of_Z 100) as Hhundred.
    { rewrite Hp, Hnumber. simpl. field. intros Hzero. rewrite Hzero in Hn.
      by apply Qlt_irrefl in Hn. }
    split_and!.
    + rewrite Hs. unfold points_of_correct, total_points.
      rewrite (imap_ext _ (fun _ question => Question.points question))
        by (intros i q Hq; by rewrite (Hmarks i q Hq)).
      f_equal. exact (imap_const Question.points qs).
    + congruence.
    + done.
    + intros ps Hps. rewrite Hpassed, Hps. rewrite Hp in Hhundred |- *.
      rewrite ge_Fin. simpl in Hhundred. by rewrite Hhundred.
  - assert (number_correct answers qs = 0%Z) as Hnumber.
    { unfold number_correct.
      rewrite (imap_ext _ (fun _ _ => 0%Z)) by (intros i q Hq; by rewrite (Hmarks i q Hq)).
      apply Zsum_zeros, Forall_lookup. intros i z. rewrite list_lookup_imap.
      destruct (qs !! i); simpl; congruence. }
    assert (percentage g ≃ Num.of_Z 0) as Hzero.
    { rewrite Hp, Hnumber. simpl. field. intros Hzero. rewrite Hzero in Hn.
      by apply Qlt_irrefl in Hn. }
    split_and!.
    + rewrite Hs. unfold points_of_correct.
      rewrite (imap_ext _ (fun _ _ => 0%Z)) by (intros i q Hq; by rewrite (Hmarks i q Hq)).
      apply Zsum_zeros, Forall_lookup. intros i z. rewrite list_lookup_imap.
      destruct (qs !! i); simpl; congruence.
    + congruence.
    + done.
    + intros ps Hps. rewrite Hpassed, Hps. rewrite Hp in Hzero |- *.
      rewrite ge_Fin. simpl in Hzero. by rewrite Hzero.
Qed.

Lemma all_or_nothing_grades_witness :
  score (tally Example.all_right_grade) = total_points (Quiz.questions Sample.quiz)
  /\ percentage Example.all_right_grade ≃ Num.of_Z 100.
Proof.
  destruct (all_or_nothing_grades Sample.quiz (Some Sample.all_right)
              Example.all_right_grade) as [Hall _].
  - vm_compute. reflexivity.
  - done.
  - destruct Hall as (Hscore & _ & Hpercentage & _); [|done].
    repeat constructor.
Defined.

(** ** Short answers *)

Lemma toLowerCase_app (a b : string) :
  toLowerCase (a ++ b) = (toLowerCase a ++ toLowerCase b)%string.
Proof. induction a as [|c a IH]; simpl; [done|]. by rewrite IH. Qed.

Lemma is_white_space_lower_char (c : ascii) :
  is_white_space (lower_char c) = is_white_space c.
Proof. destruct c as [[] [] [] [] [] [] [] []]; reflexivity. Qed.

Lemma all_white_space_toLowerCase (s : string) :
  all_white_space (toLowerCase s) = all_white_space s.
Proof.
  induction s as [|c s IH]; simpl; [done|].
  by rewrite is_white_space_lower_char, IH.
Qed.

Lemma trimStart_all_white_space (s : string) :
  all_white_space s = true -> trimStart s = EmptyString.
Proof.
  induction s as [|c s IH]; simpl; [done|].
  destruct (is_white_space c); [apply IH|done].
Qed.

Lemma trimEnd_all_white_space (s : string) :
  all_white_space s = true -> trimEnd s = EmptyString.
Proof.
  induction s as [|c s IH]; simpl; [done|].
  destruct (is_white_space c); [|done]. intros Hs. by rewrite (IH Hs).
Qed.

Lemma trimStart_padded (pre s : string) :
  all_white_space pre = true -> trimStart (pre ++ s) = trimStart s.
Proof.
  induction pre as [|c pre IH]; simpl; [done|].
  destruct (is_white_space c); [apply IH|done].
Qed.

Lemma trimEnd_padded (s post : string) :
  all_white_space post = true -> trimEnd (s ++ post) = trimEnd s.
Proof.
  intros Hpost. induction s as [|c s IH]; simpl.
  - by apply trimEnd_all_white_space.
  - by rewrite IH.
Qed.

Lemma trim_padded (pre s post : string) :
  all_white_space pre = true -> all_white_space post = true ->
  trim (pre ++ s ++ post) = trim s.
Proof.
  intros Hpre Hpost. unfold trim. rewrite trimStart_padded by done.
  induction s as [|c s IH]; simpl.
  - by rewrite trimStart_all_white_space.
  - destruct (is_white_space c); [done|].
    change (String c (s ++ post)) with (String c s ++ post)%string.
    by rewrite trimEnd_padded.
Qed.

(** X12.  A question of a type other than ["mcq"] and ["true-false"] is
    graded regardless of the case of ASCII letters and of white space around
    the answer: an answer gets the verdict of any answer it equals after
    lower-casing, however it is padded with white space on either side. *)
Theorem short_answer_ignores_case_and_padding
    (question : Question.t) (s s' pre post : string) :
  Question.type question <> "mcq"%string ->
  Question.type question <> "true-false"%string ->
  all_white_space pre = true ->
  all_white_space post = true ->
  toLowerCase s' = toLowerCase s ->
  check_answer question (VStr (pre ++ s' ++ post)) = check_answer question (VStr s).
Proof.
  intros Hmcq Htf Hpre Hpost Hcase.
  apply String.eqb_neq in Hmcq, Htf.
  rewrite !check_answer_fallback by done. simpl.
  rewrite !toLowerCase_app, Hcase.
  by rewrite trim_padded by (by rewrite all_white_space_toLowerCase).
Qed.

Lemma short_answer_ignores_case_and_padding_witness :
  check_answer Sample.q_short (VStr ("  " ++ "PARIS" ++ " "))
  = check_answer Sample.q_short (VStr "pAris").
Proof.
  by apply (short_answer_ignores_case_and_padding Sample.q_short
              "pAris" "PARIS" "  " " ").
Defined.

(** ** Analytics *)

Lemma record_attempt_in_range (a : Analytics.t) (m p : Q) :
  (0 <= Analytics.totalAttempts a)%Z ->
  Analytics.averageScore a = Num.Fin m ->
  (0 <= m <= 100)%Q -> (0 <= p <= 100)%Q ->
  exists m',
    Analytics.averageScore (record_attempt (Num.Fin p) a) = Num.Fin m'
    /\ (0 <= m' <= 100)%Q.
Proof.
  intros Hcount Haverage [Hm0 Hm100] [Hp0 Hp100].
  unfold record_attempt. cbn [Analytics.averageScore Analytics.totalAttempts].
  rewrite Haverage. unfold Num.of_Z. cbn [Num.mul Num.add Num.div].
  set (t := Analytics.totalAttempts a) in *.
  replace (t + 1 - 1)%Z with t by lia.
  assert (0 <= inject_Z t)%Q as Ht
    by (change 0%Q with (inject_Z 0); by rewrite <- Zle_Qle).
  assert (0 < inject_Z (t + 1))%Q as Ht1
    by (change 0%Q with (inject_Z 0); rewrite <- Zlt_Qlt; lia).
  destruct (Qeq_bool (inject_Z (t + 1)) 0) eqn:Hzero.
  { apply Qeq_bool_eq in Hzero. rewrite Hzero in Ht1. by apply Qlt_irrefl in Ht1. }
  eexists. split; [reflexivity|]. split.
  - apply Qle_shift_div_l; [done|]. rewrite Qmult_0_l.
    apply (Qplus_le_compat 0 _ 0); [|done]. by apply Qmult_le_0_compat.
  - apply Qle_shift_div_r; [done|]. rewrite inject_Z_plus.
    assert (100 * (inject_Z t + inject_Z 1) == 100 * inject_Z t + 100)%Q as ->
      by ring.
    apply Qplus_le_compat; [|done]. by apply Qmult_le_compat_r.
Qed.

(** X13.  A successful submission keeps the stored average in range: for a
    quiz with questions whose [totalAttempts] is not negative and whose
    [averageScore] lies between 0 and 100, the submission adds one to
    [totalAttempts] and leaves an [averageScore] between 0 and 100. *)
Theorem average_score_stays_in_range
    (env : Env) (req : PostRequest.t) (db db' : Db) (resp : Response)
    (quiz : Quiz.t) (m : Q) :
  run env (post_history req) db = (db', Normal resp) ->
  status resp = 201%nat ->
  find_quiz db (PostBody.quizId (PostRequest.body req)) = Some quiz ->
  Quiz.questions quiz <> [] ->
  (0 <= Analytics.totalAttempts (Quiz.analytics quiz))%Z ->
  Analytics.averageScore (Quiz.analytics quiz) = Num.Fin m ->
  (0 <= m <= 100)%Q ->
  exists quiz' m',
    find_quiz db' (PostBody.quizId (PostRequest.body req)) = Some quiz'
    /\ Analytics.totalAttempts (Quiz.analytics quiz')
       = (Analytics.totalAttempts (Quiz.analytics quiz) + 1)%Z
    /\ Analytics.averageScore (Quiz.analytics quiz') = Num.Fin m'
    /\ (0 <= m' <= 100)%Q.
Proof.
  intros Hrun Hstatus Hquiz Hne Hcount Haverage Hm.
  destruct (post_history_201 _ _ _ _ _ Hrun Hstatus) as (quiz0 & g & Hq & Hg & -> & _).
  assert (quiz0 = quiz) as -> by congruence.
  destruct (percentage_bounds _ _ _ Hg Hne) as (p & Hp & Hrange).
  destruct (record_attempt_in_range _ m p Hcount Haverage Hm Hrange)
    as (m' & Hm' & Hrange').
  eexists. exists m'. split; [by apply find_quiz_committed|].
  rewrite Hp. done.
Qed.

Lemma average_score_stays_in_range_witness :
  exists quiz' m',
    find_quiz Sample.db_after 7 = Some quiz'
    /\ Analytics.totalAttempts (Quiz.analytics quiz') = 1%Z
    /\ Analytics.averageScore (Quiz.analytics quiz') = Num.Fin m'
    /\ (0 <= m' <= 100)%Q.
Proof.
  apply (average_score_stays_in_range Sample.env Sample.submission Sample.db
           Sample.db_after Sample.saved Sample.quiz 0).
  - vm_compute. reflexivity.
  - reflexivity.
  - reflexivity.
  - done.
  - done.
  - reflexivity.
  - split; by vm_compute.
Defined.

(** ** The read of one record *)

Lemma may_read_refused (requester owner : User.t) :
  negb (User._id owner =? User._id requester)%nat
  && negb (String.eqb (User.role requester) "admin") = true
  <-> ~ may_read requester owner.
Proof.
  unfold may_read. rewrite Bool.andb_true_iff, !Bool.negb_true_iff.
  rewrite Nat.eqb_neq, String.eqb_neq. tauto.
Qed.

Lemma get_history_outcome env req db :
  exists resp,
    run env (get_history req) db = (db, Normal resp)
    /\ read_outcome env req db resp.
Proof.
  unfold get_history, read_outcome. rewrite run_try_catch.
  unfold get_history_body, mbind at 1, prog_bind.
  await_step. destruct (rejects env AtHistoryFind); cbv beta iota.
  { simpl. eexists. split; [reflexivity|]. by left. }
  destruct (find_history db (GetRequest.id req)) as [doc|] eqn:Hdoc; simpl.
  2: { eexists. split; [reflexivity|]. right. split; [done|]. by left. }
  destruct (find_user db (History.user doc)) as [owner|] eqn:Howner; simpl.
  2: { eexists. split; [reflexivity|]. right. split; [done|]. right.
       exists doc. split; [done|]. by left. }
  destruct (negb (User._id owner =? User._id (GetRequest.user req))%nat
            && negb (String.eqb (User.role (GetRequest.user req)) "admin"))
    eqn:Hrefused; simpl.
  { apply may_read_refused in Hrefused.
    eexists. split; [reflexivity|]. right. split; [done|]. right.
    exists doc. split; [done|]. right. exists owner. split; [done|]. by left. }
  assert (may_read (GetRequest.user req) owner) as Hmay.
  { destruct (decide (User._id owner = User._id (GetRequest.user req))) as [|Hid];
      [by left|].
    destruct (decide (User.role (GetRequest.user req) = "admin"%string)) as [|Hrole];
      [by right|].
    assert (~ may_read (GetRequest.user req) owner) as Hnot
      by (unfold may_read; tauto).
    apply may_read_refused in Hnot. congruence. }
  unfold mbind, prog_bind. rewrite run_bind, run_lift.
  destruct (explanation_lock _ doc) as [lock|e] eqn:Hlock; simpl.
  - eexists. split; [reflexivity|]. right. split; [done|]. right.
    exists doc. split; [done|]. right. exists owner. split; [done|]. right.
    split; [done|]. right. by exists lock.
  - eexists. split; [reflexivity|]. right. split; [done|]. right.
    exists doc. split; [done|]. right. exists owner. split; [done|]. right.
    split; [done|]. left. split; [by exists e|done].
Qed.

(** X14.  The read of one record never writes and always answers: whatever
    the request, the store and the storage faults, the store is left as it
    was and the answer has status 200, 403, 404 or 500. *)
Theorem get_history_only_reads (env : Env) (req : GetRequest.t) (db : Db) :
  exists resp,
    run env (get_history req) db = (db, Normal resp)
    /\ (status resp = 200 \/ status resp = 403 \/ status resp = 404
        \/ status resp = 500)%nat.
Proof.
  destruct (get_history_outcome env req db) as (resp & Hrun & Hout).
  exists resp. split; [done|].
  destruct Hout as [(_ & ->) | (_ & [(_ & ->) | (doc & _ & [(_ & ->) |
    (owner & _ & [(_ & ->) | (_ & [(_ & ->) | (lock & _ & ->)])])])])];
    simpl; tauto.
Qed.

(** X15.  A record is returned to its owner or to an admin only: every
    answer with status 200 is for a stored record whose user exists and
    either is the requester or is read by a requester of role ["admin"]. *)
Theorem record_returned_to_owner_or_admin_only
    (env : Env) (req : GetRequest.t) (db db' : Db) (resp : Response) :
  run env (get_history req) db = (db', Normal resp) ->
  status resp = 200%nat ->
  exists doc owner,
    find_history db (GetRequest.id req) = Some doc
    /\ find_user db (History.user doc) = Some owner
    /\ (User._id owner = User._id (GetRequest.user req)
        \/ User.role (GetRequest.user req) = "admin"%string).
Proof.
  intros Hrun Hstatus.
  destruct (get_history_outcome env req db) as (resp' & Hrun' & Hout).
  rewrite Hrun in Hrun'. injection Hrun' as _ <-.
  destruct Hout as [(_ & ->) | (_ & [(_ & ->) | (doc & Hdoc & [(_ & ->) |
    (owner & Howner & [(_ & ->) | (Hmay & [(_ & ->) | (lock & _ & ->)])])])])];
    try done.
  by exists doc, owner.
Qed.

Lemma record_returned_to_owner_or_admin_only_witness :
  exists doc owner,
    find_history Sample.db_after 0 = Some doc
    /\ find_user Sample.db_after (History.user doc) = Some owner
    /\ (User._id owner = User._id Sample.alice
        \/ User.role Sample.alice = "admin"%string).
Proof.
  apply (record_returned_to_owner_or_admin_only Sample.env Sample.read
           Sample.db_after Sample.db_after Sample.details).
  - vm_compute. reflexivity.
  - reflexivity.
Defined.

(** X16.  A requester who is neither the owner of a record nor an admin is
    answered 403 "Not authorized", whatever the record holds: nothing of it
    is returned and its lock is not even computed. *)
Theorem stranger_is_refused
    (env : Env) (req : GetRequest.t) (db : Db) (doc : History.t) (owner : User.t) :
  rejects env AtHistoryFind = false ->
  find_history db (GetRequest.id req) = Some doc ->
  find_user db (History.user doc) = Some owner ->
  User._id owner <> User._id (GetRequest.user req) ->
  User.role (GetRequest.user req) <> "admin"%string ->
  run env (get_history req) db = (db, Normal not_authorized).
Proof.
  intros Hfind Hdoc Howner Hid Hrole.
  destruct (get_history_outcome env req db) as (resp & -> & Hout).
  destruct Hout as [(? & _) | (_ & [(? & _) | (doc' & Hdoc' & Hout)])];
    [congruence..|].
  assert (doc' = doc) as -> by congruence.
  destruct Hout as [(? & _) | (owner' & Howner' & Hout)]; [congruence|].
  assert (owner' = owner) as -> by congruence.
  destruct Hout as [(_ & ->) | ([|] & _)]; done.
Qed.

Lemma stranger_is_refused_witness :
  run Sample.env (get_history (Example.read_by Sample.bob 0)) Sample.db_after
  = (Sample.db_after, Normal not_authorized).
Proof.
  assert (is_Some (find_history Sample.db_after 0)) as [doc Hdoc]
    by (vm_compute; by eexists).
  assert (find_user Sample.db_after (History.user doc) = find_user Sample.db_after 3)
    as Huser.
  { f_equal. revert Hdoc. vm_compute. by intros [= <-]. }
  assert (is_Some (find_user Sample.db_after 3)) as [owner Howner]
    by (vm_compute; by eexists).
  apply (stranger_is_refused Sample.env (Example.read_by Sample.bob 0)
           Sample.db_after doc owner).
  - reflexivity.
  - exact Hdoc.
  - by rewrite Huser.
  - revert Howner. vm_compute. by intros [= <-].
  - done.
Defined.

(** X17.  The read of an identifier that names no record is answered 404
    "History not found". *)
Theorem unknown_record_answers_404 (env : Env) (req : GetRequest.t) (db : Db) :
  rejects env AtHistoryFind = false ->
  find_history db (GetRequest.id req) = None ->
  run env (get_history req) db = (db, Normal history_not_found).
Proof.
  intros Hfind Hnone.
  destruct (get_history_outcome env req db) as (resp & -> & Hout).
  destruct Hout as [(? & _) | (_ & [(_ & ->) | (doc' & Hdoc' & Hout)])];
    [congruence|done|congruence].
Qed.

Lemma unknown_record_answers_404_witness :
  run Sample.env (get_history Sample.read) Sample.db
  = (Sample.db, Normal history_not_found).
Proof. by apply unknown_record_answers_404. Defined.

(** X18.  A record whose user no longer exists cannot be read by anyone,
    not by an admin either: the ownership check dereferences the missing
    user and the request is answered 500 "Failed to fetch history
    details". *)
Theorem orphaned_record_answers_500
    (env : Env) (req : GetRequest.t) (db : Db) (doc : History.t) :
  find_history db (GetRequest.id req) = Some doc ->
  find_user db (History.user doc) = None ->
  run env (get_history req) db = (db, Normal failed_to_fetch_details).
Proof.
  intros Hdoc Howner.
  destruct (get_history_outcome env req db) as (resp & -> & Hout).
  destruct Hout as [(_ & ->) | (_ & [(? & _) | (doc' & Hdoc' & Hout)])];
    [done|congruence|].
  assert (doc' = doc) as -> by congruence.
  destruct Hout as [(_ & ->) | (owner' & Howner' & Hout)]; [done|congruence].
Qed.

Lemma orphaned_record_answers_500_witness :
  run Sample.env (get_history Sample.read) Example.db_orphaned
  = (Example.db_orphaned, Normal failed_to_fetch_details).
Proof.
  assert (is_Some (find_history Example.db_orphaned 0)) as [doc Hdoc]
    by (vm_compute; by eexists).
  by apply (orphaned_record_answers_500 Sample.env Sample.read
              Example.db_orphaned doc).
Defined.

(** X19.  A locked record without a valid completion date cannot be read:
    when the explanations are locked and [completedAt] is absent or the
    invalid date, logging the unlock date throws, and the owner, or an
    admin, is answered 500 "Failed to fetch history details". *)
Theorem locked_record_without_date_answers_500
    (env : Env) (req : GetRequest.t) (db : Db) (doc : History.t) (owner : User.t) :
  find_history db (GetRequest.id req) = Some doc ->
  find_user db (History.user doc) = Some owner ->
  User._id owner = User._id (GetRequest.user req)
  \/ User.role (GetRequest.user req) = "admin"%string ->
  time_locked (find_quiz db (History.quiz doc)) doc ->
  Date.getTime (completedAt_date doc) = Num.NaN ->
  run env (get_history req) db = (db, Normal failed_to_fetch_details).
Proof.
  intros Hdoc Howner Hmay (q & tl & tt & Hq & Htl & Htt & H1 & H2 & H3) Hdate.
  assert (explanation_lock (find_quiz db (History.quiz doc)) doc = Thrown RangeError)
    as Hlock.
  { rewrite Hq. unfold explanation_lock. rewrite Htl, Htt, Hdate.
    apply gt_zero in H1. apply ge_zero in H2.
    cbn [Num.isFinite]. rewrite H1, H2. cbn [andb].
    assert ((Num.Fin tl * Num.of_Z 60 - Num.Fin tt >? Num.of_Z 0)%num = true) as ->.
    { apply gt_zero. revert H3. unfold Qminus. by intros ?. }
    reflexivity. }
  destruct (get_history_outcome env req db) as (resp & -> & Hout).
  destruct Hout as [(_ & ->) | (_ & [(? & _) | (doc' & Hdoc' & Hout)])];
    [done|congruence|].
  assert (doc' = doc) as -> by congruence.
  destruct Hout as [(_ & ->) | (owner' & Howner' & Hout)]; [done|].
  assert (owner' = owner) as -> by congruence.
  destruct Hout as [(Hnot & _) | (_ & [(_ & ->) | (lock & Hlock' & _)])];
    [done|done|congruence].
Qed.

Lemma locked_record_without_date_answers_500_witness :
  run Sample.env (get_history (Example.read_by Sample.alice 1)) Example.db_undated
  = (Example.db_undated, Normal failed_to_fetch_details).
Proof.
  apply (locked_record_without_date_answers_500 Sample.env
           (Example.read_by Sample.alice 1) Example.db_undated
           Example.undated Sample.alice).
  - reflexivity.
  - reflexivity.
  - by left.
  - exists Sample.quiz, 10%Q, 120%Q. split_and!; try reflexivity; by vm_compute.
  - reflexivity.
Defined.

(** ** A submission, then the read of its record *)

Lemma find_user_id db id user : find_user db id = Some user -> User._id user = id.
Proof.
  unfold find_user. destruct (users db !! id) as [u|]; simpl; [|done].
  destruct (User._id u =? id)%nat eqn:Hid; simpl; [|done].
  intros [= <-]. by apply Nat.eqb_eq.
Qed.

Lemma find_user_committed env req quiz g db user :
  find_user db (User._id (PostRequest.user req)) = Some user ->
  exists user',
    find_user (committed env req quiz g db) (User._id (PostRequest.user req))
    = Some user'.
Proof.
  intros Hu. unfold committed, after_analytics, after_points.
  change (find_user (set_quizzes _ ?d) ?i) with (find_user d i).
  rewrite find_user_alter by done.
  unfold after_usage. rewrite find_user_alter by done.
  change (find_user (after_create _ _ _ _ db) ?i) with (find_user db i).
  rewrite Hu. simpl. by eexists.
Qed.

(** X20.  What a submission saves can be read back by its submitter.  After
    a successful submission, the read of the returned [historyId] by the
    same user is never refused and never misses: it answers 200, or 500 when
    the unlock date cannot be formatted; and the record it returns holds
    that identifier and the score, percentage and verdict the submission
    was graded with. *)
Theorem saved_record_is_read_back
    (env env' : Env) (req : PostRequest.t) (db db' : Db) (resp : Response)
    (id : nat) :
  run env (post_history req) db = (db', Normal resp) ->
  status resp = 201%nat ->
  data_member "historyId" resp = Some (JObjectId id) ->
  rejects env' AtHistoryFind = false ->
  exists quiz g resp',
    find_quiz db (PostBody.quizId (PostRequest.body req)) = Some quiz
    /\ grade quiz (PostBody.answers (PostRequest.body req)) = Normal g
    /\ run env' (get_history {| GetRequest.user := PostRequest.user req;
                                GetRequest.id := id |}) db'
       = (db', Normal resp')
    /\ (status resp' = 200%nat \/ resp' = failed_to_fetch_details)
    /\ (status resp' = 200%nat ->
        exists historyObj,
          data_member "history" resp' = Some (JObject historyObj)
          /\ get_field "_id" historyObj = Some (JObjectId id)
          /\ get_field "score" historyObj = Some (JNumber (Num.of_Z (score (tally g))))
          /\ get_field "percentage" historyObj = Some (JNumber (percentage g))
          /\ get_field "passed" historyObj = Some (JBool (passed g))).
Proof.
  intros Hrun Hstatus Hid Hfind.
  pose proof (post_history_outcome env req db) as Hout. rewrite Hrun in Hout.
  destruct Hout
    as [(_ & _ & [= -> ->]) | [([= -> ->] & _) |
        (quiz & g & Hq & Hg & _ & _ & [(n & Hn & [= -> ->]) | ([u Hu] & [= -> ->])])]];
    try done.
  injection Hid as <-.
  exists quiz, g.
  set (history := created env db (attempt_of req quiz g)).
  set (read := {| GetRequest.user := PostRequest.user req;
                  GetRequest.id := History._id history |}).
  pose proof (find_history_committed env req quiz g db) as Hdoc. cbv zeta in Hdoc.
  fold history in Hdoc.
  destruct (find_user_committed env req quiz g db u Hu) as (owner & Howner).
  destruct (get_history_outcome env' read (committed env req quiz g db))
    as (resp' & Hread & Hout).
  exists resp'. split; [done|]. split; [done|]. split; [done|].
  unfold read_outcome in Hout. subst read.
  cbn [GetRequest.id GetRequest.user] in Hout.
  assert (History.user history = User._id (PostRequest.user req)) as Howned
    by reflexivity.
  destruct Hout as [(? & _) | (_ & [(? & _) | (doc' & Hdoc' & Hout)])];
    [congruence|congruence|].
  assert (doc' = history) as -> by congruence.
  rewrite Howned in Hout.
  destruct Hout as [(? & _) | (owner' & Howner' & Hout)]; [congruence|].
  assert (owner' = owner) as -> by congruence.
  destruct Hout as [(Hnot & _) | (_ & [(_ & ->) | (lock & _ & ->)])].
  - exfalso. apply Hnot. left. by apply find_user_id in Howner.
  - split; [by right|]. done.
  - split; [by left|]. intros _. eexists. split; [reflexivity|].
    rewrite !get_field_set_field_ne by done. by split_and!.
Qed.

Lemma saved_record_is_read_back_witness :
  exists resp',
    run Sample.env (get_history Sample.read) Sample.db_after
    = (Sample.db_after, Normal resp')
    /\ (status resp' = 200%nat \/ resp' = failed_to_fetch_details).
Proof.
  destruct (saved_record_is_read_back Sample.env Sample.env Sample.submission
              Sample.db Sample.db_after Sample.saved 0)
    as (quiz & g & resp' & _ & _ & Hread & Hstatus & _).
  - vm_compute. reflexivity.
  - reflexivity.
  - reflexivity.
  - reflexivity.
  - by exists resp'.
Defined.

(** ** The list of the requester's records *)

Lemma whole_of_Z (q : Q) (z : Z) : (q == inject_Z z)%Q -> whole (Num.Fin q) = Some z.
Proof.
  intros Hq. unfold whole.
  assert (Qfloor q = z) as -> by (by rewrite (Qfloor_comp _ _ Hq), Qfloor_Z).
  assert (Qeq_bool q (inject_Z z) = true) as -> by (by apply Qeq_bool_iff).
  done.
Qed.

Lemma whole_Some (x : number) (z : Z) : whole x = Some z -> x ≃ Num.of_Z z.
Proof.
  destruct x as [q| | |]; simpl; try done.
  destruct (Qeq_bool q (inject_Z (Qfloor q))) eqn:Hq; [|done].
  intros [= <-]. by apply Qeq_bool_iff.
Qed.

Lemma parseInt_cases (s : string) :
  parseInt s = Num.NaN \/ exists z, parseInt s = Num.of_Z z.
Proof.
  unfold parseInt.
  destruct (match trimStart s with
            | String "-" r => ((-1)%Z, r)
            | String "+" r => (1%Z, r)
            | _ => (1%Z, trimStart s)
            end) as [sign s1].
  destruct (match s1 with
            | String "0" (String "x" r) | String "0" (String "X" r) => (16%Z, r)
            | _ => (10%Z, s1)
            end) as [radix s2].
  destruct (parse_digits radix s2 None) as [z|]; [right; by eexists|by left].
Qed.

Lemma pageNum_cases (query : Query.t) :
  pageNum query = Num.NaN \/ exists z, pageNum query = Num.of_Z z.
Proof.
  unfold pageNum. destruct (Query.page query); [apply parseInt_cases|].
  right. by exists 1%Z.
Qed.

Lemma limitNum_cases (query : Query.t) :
  limitNum query = Num.NaN \/ exists z, limitNum query = Num.of_Z z.
Proof.
  unfold limitNum. destruct (Query.limit query); [apply parseInt_cases|].
  right. by exists 10%Z.
Qed.

Lemma skip_of_whole (p l : Z) :
  whole (skip_of (Num.of_Z p) (Num.of_Z l)) = Some ((p - 1) * l)%Z.
Proof.
  unfold skip_of, Num.of_Z. cbn [Num.sub Num.neg Num.add Num.mul].
  apply whole_of_Z. rewrite inject_Z_mult. unfold Z.sub. rewrite inject_Z_plus.
  reflexivity.
Qed.

Lemma skip_argument_page (p l : Z) :
  (1 <= p)%Z -> (0 <= l)%Z -> ((p - 1) * l <= max_long)%Z ->
  skip_argument (skip_of (Num.of_Z p) (Num.of_Z l)) = Some (Z.to_nat ((p - 1) * l)).
Proof.
  intros Hp Hl Hmax. unfold skip_argument. rewrite skip_of_whole.
  assert ((0 <=? (p - 1) * l)%Z = true) as -> by (apply Z.leb_le; nia).
  by assert (((p - 1) * l <=? max_long)%Z = true) as -> by (by apply Z.leb_le).
Qed.

Lemma limit_argument_of_Z (l : Z) :
  (1 <= l <= max_long)%Z -> limit_argument (Num.of_Z l) = Some (Z.to_nat l).
Proof.
  intros [H1 Hmax]. unfold limit_argument, Num.of_Z.
  rewrite (whole_of_Z _ l) by reflexivity.
  assert ((1 <=? l)%Z = true) as -> by (by apply Z.leb_le).
  by assert ((l <=? max_long)%Z = true) as -> by (by apply Z.leb_le).
Qed.

Lemma limit_argument_Some (x : number) (n : nat) :
  limit_argument x = Some n ->
  exists l, x ≃ Num.of_Z l /\ (1 <= l <= max_long)%Z /\ n = Z.to_nat l.
Proof.
  unfold limit_argument. destruct (whole x) as [z|] eqn:Hz; [|done].
  destruct ((1 <=? z)%Z && (z <=? max_long)%Z) eqn:Hrange; [|done].
  intros [= <-]. apply andb_prop in Hrange as [H1 H2].
  apply Z.leb_le in H1, H2. exists z. split; [by apply whole_Some|done].
Qed.

Lemma skip_argument_Some (x : number) (n : nat) :
  skip_argument x = Some n ->
  exists s, x ≃ Num.of_Z s /\ (0 <= s <= max_long)%Z /\ n = Z.to_nat s.
Proof.
  unfold skip_argument. destruct (whole x) as [z|] eqn:Hz; [|done].
  destruct ((0 <=? z)%Z && (z <=? max_long)%Z) eqn:Hrange; [|done].
  intros [= <-]. apply andb_prop in Hrange as [H1 H2].
  apply Z.leb_le in H1, H2. exists z. split; [by apply whole_Some|done].
Qed.

Lemma same_of_Z (a b : Z) : Num.of_Z a ≃ Num.of_Z b -> a = b.
Proof. unfold Num.of_Z. simpl. apply inject_Z_injective. Qed.

Section ListingProperties.

Context (newest_first : list History.t -> list History.t)
        (newest_legacy_first : list Legacy.t -> list Legacy.t).


(** The answer to a request whose page [p] and limit [l] the store accepts. *)
Lemma get_list_200 faults req db legacy :
  status (get_list newest_first newest_legacy_first faults req db legacy) = 200%nat ->
  aggregate_rejected faults = false
  /\ legacy_find_rejected faults = false
  /\ exists p l,
       pageNum (ListRequest.query req) = Num.of_Z p
       /\ limitNum (ListRequest.query req) = Num.of_Z l
       /\ (1 <= p)%Z /\ (1 <= l <= max_long)%Z
       /\ ((p - 1) * l <= max_long)%Z
       /\ get_list newest_first newest_legacy_first faults req db legacy
          = let user := User._id (ListRequest.user req) in
            history_page
              (omap (lookup_unwind db)
                 (take (Z.to_nat l) (drop (Z.to_nat ((p - 1) * l)) (matched newest_first db user))))
              (legacy_find newest_legacy_first legacy user) (Num.of_Z p) (Num.of_Z l)
              (Z.of_nat (length (matched newest_first db user))).
Proof.
  unfold get_list, get_list_body.
  destruct (aggregate_rejected faults); [done|].
  unfold aggregate.
  destruct (skip_argument _) as [s|] eqn:Hskip; [|done].
  destruct (limit_argument _) as [n|] eqn:Hlimit; [|done].
  cbn [metadata data].
  destruct (legacy_find_rejected faults); [done|]. intros _.
  split; [done|]. split; [done|].
  apply limit_argument_Some in Hlimit as (l & Hl & Hrange & ->).
  apply skip_argument_Some in Hskip as (s' & Hs & Hrange' & ->).
  destruct (limitNum_cases (ListRequest.query req)) as [HNaN | (l' & Hl')].
  { by rewrite HNaN in Hl. }
  rewrite Hl' in *. apply same_of_Z in Hl as ->.
  destruct (pageNum_cases (ListRequest.query req)) as [HNaN | (p & Hp)].
  { by rewrite HNaN in Hs. }
  rewrite Hp in *.
  assert (s' = ((p - 1) * l)%Z) as ->.
  { pose proof (skip_of_whole p l) as Hwhole. apply whole_Some in Hwhole.
    destruct (skip_of (Num.of_Z p) (Num.of_Z l)) as [q| | |]; try done.
    simpl in Hs, Hwhole. apply inject_Z_injective. by rewrite <- Hs, <- Hwhole. }
  exists p, l. split; [done|]. split; [done|]. split; [nia|].
  split; [done|]. split; [lia|].
  cbv zeta. f_equal.
  destruct (matched _ db _) eqn:Hm; [done|]. by rewrite <- Hm.
Qed.

(** X21.  The list of the requester's records is answered 200 or 500
    "Failed to fetch history", and nothing else.  It is answered 200 only
    when neither awaited call is rejected and [page] and [limit] parse to
    whole numbers of at least 1; and with such a page and limit, their
    product within the safe integers, it is answered 200. *)
Theorem list_answers_200_or_500
    (faults : ListFaults) (req : ListRequest.t) (db : Db) (legacy : list Legacy.t) :
  let resp := get_list newest_first newest_legacy_first faults req db legacy in
  let query := ListRequest.query req in
  (status resp = 200%nat \/ resp = failed_to_fetch_history)
  /\ (status resp = 200%nat ->
      aggregate_rejected faults = false
      /\ legacy_find_rejected faults = false
      /\ exists p l,
           pageNum query = Num.of_Z p /\ limitNum query = Num.of_Z l
           /\ (1 <= p)%Z /\ (1 <= l)%Z)
  /\ (forall p l,
        aggregate_rejected faults = false ->
        legacy_find_rejected faults = false ->
        pageNum query = Num.of_Z p -> limitNum query = Num.of_Z l ->
        (1 <= p)%Z -> (1 <= l)%Z -> (p * l <= max_safe)%Z ->
        status resp = 200%nat).
Proof.
  cbv zeta. split_and!.
  - unfold get_list.
    destruct (get_list_body newest_first newest_legacy_first faults req db legacy) as [resp|e] eqn:Hbody; [|by right].
    left. revert Hbody. unfold get_list_body.
    destruct (aggregate_rejected faults); [done|].
    destruct (aggregate _ _ _ _ _); [|done].
    destruct (legacy_find_rejected faults); [done|]. by intros [= <-].
  - intros Hstatus.
    destruct (get_list_200 _ _ _ _ Hstatus)
      as (Ha & Hf & p & l & Hp & Hl & Hp1 & Hl1 & _).
    split; [done|]. split; [done|]. exists p, l. split_and!; try done. lia.
  - intros p l Ha Hf Hp Hl Hp1 Hl1 Hsafe.
    unfold get_list, get_list_body.
    rewrite Ha, Hf, Hp, Hl. unfold aggregate.
    assert (max_safe <= max_long)%Z as Hmax by (by vm_compute).
    rewrite skip_argument_page by nia.
    rewrite limit_argument_of_Z by nia. done.
Qed.

Lemma page_entries_accepted db user (p l : Z) :
  (1 <= p)%Z -> (1 <= l <= max_long)%Z -> ((p - 1) * l <= max_long)%Z ->
  page_entries newest_first db user p l
  = omap (lookup_unwind db)
      (take (Z.to_nat l)
         (drop (Z.to_nat ((p - 1) * l)) (matched newest_first db user))).
Proof.
  intros Hp Hl Hskip. unfold page_entries, aggregate.
  rewrite skip_argument_page by lia. by rewrite limit_argument_of_Z.
Qed.

(** X22.  Reading the pages 1 to [k] one after the other yields the first
    [k * l] records of the requester in the order of the sort, less those
    whose quiz is gone: no record is repeated and none is skipped, though a
    page may hold fewer than [l] entries. *)
Theorem pages_tile_the_history (db : Db) (user : nat) (k : nat) (l : Z) :
  (1 <= l)%Z ->
  (Z.of_nat k * l <= max_safe)%Z ->
  mjoin ((fun p => page_entries newest_first db user (Z.of_nat p) l) <$> seq 1 k)
  = omap (lookup_unwind db)
      (take (k * Z.to_nat l) (matched newest_first db user)).
Proof.
  intros Hl. assert (max_safe <= max_long)%Z as Hmax by (by vm_compute).
  induction k as [|k IH]; intros Hsafe; [done|].
  rewrite seq_S, fmap_app, join_app, IH by lia. simpl mjoin. rewrite app_nil_r.
  rewrite page_entries_accepted by nia.
  rewrite <- omap_app. f_equal.
  replace (Z.to_nat ((Z.of_nat (S k) - 1) * l)) with (k * Z.to_nat l)%nat by nia.
  rewrite take_take_drop. f_equal. lia.
Qed.

Hypothesis newest_first_permutes : forall l, newest_first l ≡ₚ l.
Hypothesis newest_legacy_first_permutes : forall l, newest_legacy_first l ≡ₚ l.

Lemma elem_of_documents db history :
  history ∈ documents db <-> find_history db (History._id history) = Some history.
Proof.
  unfold documents, find_history. rewrite list_elem_of_omap. split.
  - intros ([id h] & Hin & Hsome). simpl in Hsome.
    destruct (History._id h =? id)%nat eqn:Hid; [|done].
    injection Hsome as ->. apply Nat.eqb_eq in Hid. subst id.
    apply elem_of_map_to_list in Hin. rewrite Hin. simpl.
    by rewrite Nat.eqb_refl.
  - intros Hfind.
    destruct (quizhistories db !! History._id history) as [h|] eqn:Hlookup;
      [|done].
    simpl in Hfind. destruct (History._id h =? History._id history)%nat eqn:Hid;
      [|done].
    injection Hfind as ->. exists (History._id history, history). split.
    + by apply elem_of_map_to_list.
    + simpl. by rewrite Nat.eqb_refl.
Qed.

Lemma elem_of_matched db user history :
  history ∈ matched newest_first db user
  <-> find_history db (History._id history) = Some history
      /\ History.user history = user.
Proof.
  unfold matched, match_user. rewrite newest_first_permutes.
  rewrite list_elem_of_filter, elem_of_documents. tauto.
Qed.

Lemma length_omap_le {A B} (f : A -> option B) (l : list A) :
  (length (omap f l) <= length l)%nat.
Proof.
  induction l as [|x l IH]; [done|].
  change (omap f (x :: l))
    with (match f x with Some y => y :: omap f l | None => omap f l end).
  destruct (f x); cbn [length]; lia.
Qed.

(** X23.  A page of the list holds at most [limit] entries; each is a stored
    record of the requester whose quiz exists, given with that quiz; and
    the pagination echoes the parsed [page] and [limit] with, as [total],
    the number of all records of the requester. *)
Theorem listed_page_is_bounded_and_owned
    (faults : ListFaults) (req : ListRequest.t) (db : Db) (legacy : list Legacy.t) :
  let resp := get_list newest_first newest_legacy_first faults req db legacy in
  let user := User._id (ListRequest.user req) in
  status resp = 200%nat ->
  exists p l entries,
    pageNum (ListRequest.query req) = Num.of_Z p
    /\ limitNum (ListRequest.query req) = Num.of_Z l
    /\ entries = page_entries newest_first db user p l
    /\ data_member "history" resp = Some (JArray (json_of_entry <$> entries))
    /\ data_member "pagination" resp
       = Some (JObject [
                 ("page", JNumber (Num.of_Z p));
                 ("limit", JNumber (Num.of_Z l));
                 ("total",
                  JNumber (Num.of_Z
                             (Z.of_nat (length (match_user user (documents db))))))
               ])
    /\ (Z.of_nat (length entries) <= l)%Z
    /\ forall history quiz,
         (history, quiz) ∈ entries ->
         find_history db (History._id history) = Some history
         /\ History.user history = user
         /\ find_quiz db (History.quiz history) = Some quiz.
Proof.
  cbv zeta. intros Hstatus.
  destruct (get_list_200 _ _ _ _ Hstatus)
    as (_ & _ & p & l & Hp & Hl & Hp1 & Hl1 & Hskip & ->).
  cbv zeta. exists p, l. eexists. split; [done|]. split; [done|].
  split; [reflexivity|]. rewrite page_entries_accepted by done.
  split; [reflexivity|]. split.
  { unfold data_member, history_page. simpl. do 6 f_equal.
    unfold matched. by rewrite newest_first_permutes. }
  split.
  { etrans; [apply inj_le, length_omap_le|]. rewrite length_take. lia. }
  intros history quiz Hin.
  apply list_elem_of_omap in Hin as (h & Hin & Hlookup).
  apply subseteq_take, subseteq_drop, elem_of_matched in Hin as [Hfind Huser].
  unfold lookup_unwind in Hlookup.
  destruct (find_quiz db (History.quiz h)) as [q|] eqn:Hq; [|done].
  by injection Hlookup as -> ->.
Qed.

(** X24.  A record whose quiz has been deleted is counted and never listed:
    whatever the page and the limit, [total] counts it — so the list is
    never reported empty — while no page holds it. *)
Theorem orphaned_record_is_counted_not_listed
    (db : Db) (history : History.t) (skip limit : number) (result : Facets) :
  find_history db (History._id history) = Some history ->
  find_quiz db (History.quiz history) = None ->
  aggregate newest_first db (History.user history) skip limit = Normal result ->
  (exists total, metadata result = [total] /\ (1 <= total)%Z
                 /\ total = Z.of_nat (length (match_user (History.user history)
                                                 (documents db))))
  /\ forall quiz, (history, quiz) ∉ data result.
Proof.
  intros Hfind Hquiz. unfold aggregate.
  destruct (skip_argument skip) as [s|]; [|done].
  destruct (limit_argument limit) as [l|]; [|done].
  intros [= <-]. cbn [metadata data].
  assert (history ∈ matched newest_first db (History.user history)) as Hin
    by (by apply elem_of_matched).
  split.
  - destruct (matched newest_first db (History.user history)) as [|h rest] eqn:Hm.
    { by apply elem_of_nil in Hin. }
    eexists. split; [reflexivity|]. rewrite <- Hm. unfold matched.
    rewrite newest_first_permutes. split; [|done].
    assert (length (match_user (History.user history) (documents db))
            = length (h :: rest)) as ->; [|simpl; lia].
    rewrite <- Hm. unfold matched. by rewrite newest_first_permutes.
  - intros quiz Hlisted.
    apply list_elem_of_omap in Hlisted as (h & _ & Hlookup).
    unfold lookup_unwind in Hlookup.
    destruct (find_quiz db (History.quiz h)) as [q|] eqn:Hq; [|done].
    injection Hlookup as -> ->. congruence.
Qed.

(** X25.  The legacy entries of an answer are at most three entries of the
    legacy collection, all of the requester, and do not depend on the page
    or the limit asked for. *)
Theorem legacy_entries_are_three_of_the_requester
    (faults faults' : ListFaults) (req req' : ListRequest.t) (db db' : Db)
    (legacy : list Legacy.t) :
  let resp := get_list newest_first newest_legacy_first faults req db legacy in
  let resp' := get_list newest_first newest_legacy_first faults' req' db' legacy in
  status resp = 200%nat ->
  exists entries,
    data_member "legacy" resp = Some (JArray (json_of_legacy <$> entries))
    /\ (length entries <= 3)%nat
    /\ (forall entry,
          entry ∈ entries ->
          entry ∈ legacy /\ Legacy.user entry = User._id (ListRequest.user req))
    /\ (status resp' = 200%nat ->
        User._id (ListRequest.user req') = User._id (ListRequest.user req) ->
        data_member "legacy" resp' = data_member "legacy" resp).
Proof.
  cbv zeta. intros Hstatus.
  destruct (get_list_200 _ _ _ _ Hstatus) as (_ & _ & p & l & _ & _ & _ & _ & _ & ->).
  cbv zeta. eexists. split; [reflexivity|]. split_and!.
  - unfold legacy_find. rewrite length_take. lia.
  - intros entry Hin. unfold legacy_find in Hin.
    apply subseteq_take in Hin. rewrite newest_legacy_first_permutes in Hin.
    apply list_elem_of_filter in Hin. tauto.
  - intros Hstatus' Huser.
    destruct (get_list_200 _ _ _ _ Hstatus')
      as (_ & _ & p' & l' & _ & _ & _ & _ & _ & ->).
    cbv zeta. rewrite Huser. reflexivity.
Qed.

End ListingProperties.

(** X26.  A request without [page] or without [limit] is answered as one
    with [page=1], resp. [limit=10]. *)
Theorem missing_page_and_limit_default
    (newest_first : list History.t -> list History.t)
    (newest_legacy_first : list Legacy.t -> list Legacy.t)
    (faults : ListFaults) (user : User.t) (page limit : option string)
    (db : Db) (legacy : list Legacy.t) :
  get_list newest_first newest_legacy_first faults
    {| ListRequest.user := user;
       ListRequest.query := {| Query.page := page; Query.limit := limit |} |}
    db legacy
  = get_list newest_first newest_legacy_first faults
      {| ListRequest.user := user;
         ListRequest.query :=
           {| Query.page := Some (default "1"%string page);
              Query.limit := Some (default "10"%string limit) |} |}
      db legacy.
Proof.
  unfold get_list, get_list_body, pageNum, limitNum.
  cbn [ListRequest.query ListRequest.user Query.page Query.limit].
  by destruct page, limit.
Qed.

Lemma insert_by_id_permutes history l :
  Example.insert_by_id history l ≡ₚ history :: l.
Proof.
  induction l as [|x l IH]; simpl; [done|].
  destruct (History._id x <=? History._id history)%nat; [done|].
  rewrite IH. apply Permutation_swap.
Qed.

Lemma by_id_permutes l : Example.newest_first l ≡ₚ l.
Proof.
  induction l as [|x l IH]; simpl; [done|].
  by rewrite insert_by_id_permutes, IH.
Qed.

Lemma insert_legacy_by_id_permutes entry l :
  Example.insert_legacy_by_id entry l ≡ₚ entry :: l.
Proof.
  induction l as [|x l IH]; simpl; [done|].
  destruct (Legacy._id x <=? Legacy._id entry)%nat; [done|].
  rewrite IH. apply Permutation_swap.
Qed.

Lemma legacy_by_id_permutes l : Example.newest_legacy_first l ≡ₚ l.
Proof.
  induction l as [|x l IH]; simpl; [done|].
  by rewrite insert_legacy_by_id_permutes, IH.
Qed.

Lemma pages_tile_the_history_witness :
  mjoin ((fun p => page_entries Example.newest_first Example.db_listed 3
                     (Z.of_nat p) 2) <$> seq 1 2)
  = omap (lookup_unwind Example.db_listed)
      (take 4 (matched Example.newest_first Example.db_listed 3)).
Proof.
  apply (pages_tile_the_history Example.newest_first Example.db_listed 3 2 2);
    by vm_compute.
Defined.

Lemma listed_page_is_bounded_and_owned_witness :
  exists entries,
    data_member "history" Example.second_page
    = Some (JArray (json_of_entry <$> entries))
    /\ (Z.of_nat (length entries) <= 2)%Z.
Proof.
  destruct (listed_page_is_bounded_and_owned
              Example.newest_first Example.newest_legacy_first by_id_permutes
              Example.no_faults
              (Example.list_by Sample.alice (Some "2") (Some "2"))%string
              Example.db_listed Example.legacy)
    as (p & l & entries & _ & Hl & _ & Hhistory & _ & Hlength & _).
  - reflexivity.
  - exists entries. split; [exact Hhistory|].
    assert (l = 2%Z) as <-; [|done].
    symmetry. apply same_of_Z. rewrite <- Hl. by vm_compute.
Defined.

Lemma orphaned_record_is_counted_not_listed_witness :
  exists total, metadata Example.first_facets = [total] /\ (1 <= total)%Z.
Proof.
  destruct (orphaned_record_is_counted_not_listed
              Example.newest_first by_id_permutes Example.db_listed
              (Example.record_of 2 3 99) (Num.of_Z 0) (Num.of_Z 10)
              Example.first_facets)
    as [(total & Hmetadata & Htotal & _) _].
  - reflexivity.
  - reflexivity.
  - vm_compute. reflexivity.
  - by exists total.
Defined.

Lemma legacy_entries_are_three_of_the_requester_witness :
  exists entries,
    data_member "legacy" Example.second_page
    = Some (JArray (json_of_legacy <$> entries))
    /\ (length entries <= 3)%nat.
Proof.
  destruct (legacy_entries_are_three_of_the_requester
              Example.newest_first Example.newest_legacy_first
              legacy_by_id_permutes
              Example.no_faults Example.no_faults
              (Example.list_by Sample.alice (Some "2") (Some "2"))%string
              (Example.list_by Sample.alice None None)
              Example.db_listed Example.db_listed Example.legacy)
    as (entries & Hlegacy & Hlength & _).
  - reflexivity.
  - by exists entries.
Defined.

(** ** A submission, then the list *)

Lemma documents_after_writes n env req quiz g db :
  (1 <= n)%nat ->
  documents (after_writes n env req quiz g db)
  ≡ₚ created env db (attempt_of req quiz g) :: documents db.
Proof.
  intros Hn. unfold documents.
  assert (quizhistories (after_writes n env req quiz g db)
          = <[History._id (created env db (attempt_of req quiz g))
              := created env db (attempt_of req quiz g)]> (quizhistories db)) as ->.
  { destruct n as [|[|[|[|n]]]]; [lia|reflexivity..]. }
  rewrite map_to_list_insert by apply created_is_new.
  change (omap ?f (?x :: ?l))
    with (match f x with Some y => y :: omap f l | None => omap f l end).
  cbn [fst snd]. by rewrite Nat.eqb_refl.
Qed.

(** X27.  The list counts every attempt that was inserted.  A submission
    either leaves the collection of records as it was or adds exactly one
    record, of the submitter, so that the [total] of the submitter's list
    grows by one.  It adds one when it is answered 201; and it adds one
    whenever the quiz is found, the answers are graded and the insert is
    accepted, also when a later write is rejected and the answer is 500. *)
Theorem list_counts_every_inserted_attempt
    (env : Env) (req : PostRequest.t) (db : Db) :
  let db' := (run env (post_history req) db).1 in
  let user := User._id (PostRequest.user req) in
  (documents db' = documents db \/ adds_one_record user db db')
  /\ (forall resp,
        (run env (post_history req) db).2 = Normal resp ->
        status resp = 201%nat ->
        adds_one_record user db db')
  /\ (forall quiz g,
        rejects env AtQuizFind = false ->
        rejects env AtHistoryCreate = false ->
        find_quiz db (PostBody.quizId (PostRequest.body req)) = Some quiz ->
        grade quiz (PostBody.answers (PostRequest.body req)) = Normal g ->
        adds_one_record user db db').
Proof.
  cbv zeta.
  assert (forall n quiz g,
            (1 <= n)%nat ->
            adds_one_record (User._id (PostRequest.user req)) db
              (after_writes n env req quiz g db)) as Hadded.
  { intros n quiz g Hn. exists (created env db (attempt_of req quiz g)).
    split; [by apply documents_after_writes|]. split; [done|].
    unfold match_user. rewrite documents_after_writes by done.
    by rewrite filter_cons_True. }
  destruct (post_history_outcome env req db)
    as [(Hnone & _ & ->) | [(-> & Hwhy) |
        (quiz & g & Hq & Hg & _ & _ & [(n & Hn & ->) | (_ & ->)])]];
    cbn [fst snd].
  - split; [by left|]. split; [by intros ? [= <-]|]. intros; congruence.
  - split; [by left|]. split; [by intros ? [= <-]|].
    intros quiz g Hfind Hcreate Hq Hg.
    destruct Hwhy as [?|(quiz' & Hq' & [[e He]|?])]; congruence.
  - assert (adds_one_record (User._id (PostRequest.user req)) db
              (after_writes n env req quiz g db)) by (apply Hadded; lia).
    split; [by right|]. split; by intros.
  - assert (adds_one_record (User._id (PostRequest.user req)) db
              (committed env req quiz g db)) by (apply (Hadded 4%nat); lia).
    split; [by right|]. split; by intros.
Qed.
